(** * hcid D-Bus service (hcid/dbus.c): model and verified properties

    A shallow embedding of [hcid/dbus.c]: the object-path registry, the
    request routers [msg_func_device] and [msg_func_manager], the service
    handlers, the error-reply builder and the PIN request correlator.

    Conventions.
    - C integers are [Z]; a value stored into a [uint8_t] or [uint32_t] is
      reduced with [uint8] / [uint32].
    - The file-scope variables [connection] and [default_dev], the object
      tree kept by the bus connection (path -> user data) and the pending
      calls with a notify function are the fields of [hcid_state].  The last
      field, [trace], logs every call on a controller ([hci_open_dev],
      [hci_send_req], [hci_send_cmd], and [close] or [hci_close_dev] of its
      descriptor) and every message handed to the bus
      ([dbus_connection_send], [dbus_connection_send_with_reply]), the
      opening of the raw HCI socket, and every [free] of user data bound
      to an object path.
    - Where the C code does something the language gives no meaning (a
      write through a null pointer, a copy past the end of an array) the
      function logs [undefined_behaviour] and stops: the run has no
      defined behaviour from that event on.
    - A function of the source that calls out or touches the state is a
      computation in the state monad [M]; the others are plain functions.
    - What the kernel, libbluetooth, libdbus and the C library answer is
      read from a [World] record; the constants of the headers [dbus.h] and
      [bluetooth/hci.h], which are not part of this file, are the fields of
      the classes [dbus_h] and [hci_h].
    - A library call fails where the [World] says so; queries answered by
      the kernel without a command to a controller ([hci_devinfo],
      [hci_get_route], [hci_devid], the ioctls on the raw HCI socket) are
      read from the [World] and not logged.  The object tree is kept in the
      state, so [dbus_connection_get_object_path_data] is the lookup in
      it: it answers TRUE, with a null pointer for a path nothing is bound
      to. *)

From Stdlib Require Import ZArith Lia.
From stdpp Require Import base option list strings pretty gmap.

Local Open Scope string_scope.
Local Open Scope list_scope.
Local Open Scope Z_scope.

(** ** Fixed-width integers *)

Definition uint8 (x : Z) : Z := x mod 256.
Definition uint32 (x : Z) : Z := x mod 4294967296.

(** ** Names declared by the headers *)

(** Controller status codes named in [hci_error_array]. *)
Inductive hci_error_macro : Set :=
  | HCI_UNKNOWN_COMMAND | HCI_NO_CONNECTION | HCI_HARDWARE_FAILURE
  | HCI_PAGE_TIMEOUT | HCI_AUTHENTICATION_FAILURE | HCI_PIN_OR_KEY_MISSING
  | HCI_MEMORY_FULL | HCI_CONNECTION_TIMEOUT | HCI_MAX_NUMBER_OF_CONNECTIONS
  | HCI_MAX_NUMBER_OF_SCO_CONNECTIONS | HCI_ACL_CONNECTION_EXISTS
  | HCI_COMMAND_DISALLOWED | HCI_REJECTED_LIMITED_RESOURCES
  | HCI_REJECTED_SECURITY | HCI_REJECTED_PERSONAL | HCI_HOST_TIMEOUT
  | HCI_UNSUPPORTED_FEATURE | HCI_INVALID_PARAMETERS
  | HCI_OE_USER_ENDED_CONNECTION | HCI_OE_LOW_RESOURCES | HCI_OE_POWER_OFF
  | HCI_CONNECTION_TERMINATED | HCI_REPEATED_ATTEMPTS
  | HCI_PAIRING_NOT_ALLOWED | HCI_UNKNOWN_LMP_PDU
  | HCI_UNSUPPORTED_REMOTE_FEATURE | HCI_SCO_OFFSET_REJECTED
  | HCI_SCO_INTERVAL_REJECTED | HCI_AIR_MODE_REJECTED
  | HCI_INVALID_LMP_PARAMETERS | HCI_UNSPECIFIED_ERROR
  | HCI_UNSUPPORTED_LMP_PARAMETER_VALUE | HCI_ROLE_CHANGE_NOT_ALLOWED
  | HCI_LMP_RESPONSE_TIMEOUT | HCI_LMP_ERROR_TRANSACTION_COLLISION
  | HCI_LMP_PDU_NOT_ALLOWED | HCI_ENCRYPTION_MODE_NOT_ACCEPTED
  | HCI_UNIT_LINK_KEY_USED | HCI_QOS_NOT_SUPPORTED | HCI_INSTANT_PASSED
  | HCI_PAIRING_NOT_SUPPORTED | HCI_TRANSACTION_COLLISION
  | HCI_QOS_UNACCEPTABLE_PARAMETER | HCI_QOS_REJECTED
  | HCI_CLASSIFICATION_NOT_SUPPORTED | HCI_INSUFFICIENT_SECURITY
  | HCI_PARAMETER_OUT_OF_RANGE | HCI_ROLE_SWITCH_PENDING
  | HCI_SLOT_VIOLATION | HCI_ROLE_SWITCH_FAILED.

(** Device flags named in [dev_flags_map], and [HCI_UP]. *)
Inductive hci_flag : Set :=
  | HCI_UP | HCI_INIT | HCI_RUNNING | HCI_RAW | HCI_PSCAN | HCI_ISCAN
  | HCI_INQUIRY | HCI_AUTH | HCI_ENCRYPT | HCI_SECMGR.

(** Opcode group and command fields of the commands the file sends.  A
    command is identified by the macro that names it. *)
Inductive hci_ogf : Set := OGF_LINK_CTL | OGF_HOST_CTL.

Inductive hci_ocf : Set :=
  | OCF_INQUIRY | OCF_INQUIRY_CANCEL | OCF_REMOTE_NAME_REQ
  | OCF_AUTH_REQUESTED | OCF_PIN_CODE_REPLY | OCF_PIN_CODE_NEG_REPLY
  | OCF_READ_SCAN_ENABLE | OCF_WRITE_SCAN_ENABLE | OCF_READ_LOCAL_NAME
  | OCF_CHANGE_LOCAL_NAME.

Global Instance hci_ogf_eq_dec : EqDecision hci_ogf.
Proof. solve_decision. Defined.
Global Instance hci_ocf_eq_dec : EqDecision hci_ocf.
Proof. solve_decision. Defined.

(** Method names of the two service tables ([DEV_...] and [MGR_...]
    macros of dbus.h); each has a name string and a signature string. *)
Inductive dev_method : Set :=
  | DEV_GET_ADDRESS | DEV_GET_ALIAS | DEV_GET_COMPANY
  | DEV_GET_DISCOVERABLE_TO | DEV_GET_FEATURES | DEV_GET_MANUFACTURER
  | DEV_GET_MODE | DEV_GET_NAME | DEV_GET_REVISION | DEV_GET_VERSION
  | DEV_IS_CONNECTABLE | DEV_IS_DISCOVERABLE
  | DEV_SET_ALIAS | DEV_SET_CLASS | DEV_SET_DISCOVERABLE_TO | DEV_SET_MODE
  | DEV_SET_NAME
  | DEV_DISCOVER | DEV_DISCOVER_CACHE | DEV_DISCOVER_CANCEL
  | DEV_DISCOVER_SERVICE
  | DEV_LAST_SEEN | DEV_LAST_USED
  | DEV_REMOTE_ALIAS | DEV_REMOTE_NAME | DEV_REMOTE_VERSION
  | DEV_CREATE_BONDING | DEV_LIST_BONDINGS | DEV_HAS_BONDING
  | DEV_REMOVE_BONDING
  | DEV_PIN_CODE_LENGTH | DEV_ENCRYPTION_KEY_SIZE.

Inductive mgr_method : Set := MGR_DEVICE_LIST | MGR_DEFAULT_DEVICE.

(** The constants of [dbus.h] (the header of this directory). *)
Class dbus_h := {
  BASE_PATH : string;
  BASE_INTERFACE : string;
  DEVICE_PATH : string;
  DEVICE_INTERFACE : string;
  MANAGER_PATH : string;
  MANAGER_INTERFACE : string;
  ERROR_INTERFACE : string;
  MANAGER_ROOT_ID : Z;
  DEVICE_ROOT_ID : Z;
  DEVICE_PATH_ID : Z;
  INVALID_DEV_ID : Z;
  BLUEZ_EBT_OFFSET : Z;
  BLUEZ_EDBUS_OFFSET : Z;
  BLUEZ_ESYSTEM_OFFSET : Z;
  BLUEZ_EDBUS_UNKNOWN_METHOD : Z;
  BLUEZ_EDBUS_WRONG_SIGNATURE : Z;
  BLUEZ_EDBUS_WRONG_PARAM : Z;
  BLUEZ_EDBUS_RECORD_NOT_FOUND : Z;
  BLUEZ_EDBUS_NO_MEM : Z;
  BLUEZ_EDBUS_CONN_NOT_FOUND : Z;
  BLUEZ_EDBUS_UNKNOWN_PATH : Z;
  BLUEZ_EDBUS_NOT_IMPLEMENTED : Z;
  BLUEZ_ESYSTEM_ENODEV : Z;
  MODE_OFF : Z;
  MODE_CONNECTABLE : Z;
  MODE_DISCOVERABLE : Z;
  dev_method_name : dev_method → string;
  dev_method_signature : dev_method → string;
  mgr_method_name : mgr_method → string;
  mgr_method_signature : mgr_method → string;
  MGR_REPLY_DEVICE_LIST_STRUCT_SIGNATURE : string;
  BLUEZ_MGR_DEV_ADDED : string;
  BLUEZ_MGR_DEV_REMOVED : string;
  DEV_SIG_MODE_CHANGED : string;
  DEV_SIG_REMOTE_NAME : string;
}.

(** The constants of [bluetooth/hci.h] used by the file. *)
Class hci_h := {
  SCAN_DISABLED : Z;
  SCAN_INQUIRY : Z;
  SCAN_PAGE : Z;
  hci_error_code : hci_error_macro → Z;
  hci_flag_bit : hci_flag → Z;
}.

(** ** Bus messages *)

Inductive dbus_message_type : Set :=
  | DBUS_MESSAGE_TYPE_METHOD_CALL
  | DBUS_MESSAGE_TYPE_METHOD_RETURN
  | DBUS_MESSAGE_TYPE_ERROR
  | DBUS_MESSAGE_TYPE_SIGNAL.

Global Instance dbus_message_type_eq_dec : EqDecision dbus_message_type.
Proof. solve_decision. Defined.

(** A typed argument.  An array carries the signature of its elements. *)
#[warnings="-register-all"] Inductive dbus_arg : Type :=
  | DBUS_TYPE_BYTE (b : Z)
  | DBUS_TYPE_BOOLEAN (b : bool)
  | DBUS_TYPE_INT32 (n : Z)
  | DBUS_TYPE_UINT32 (n : Z)
  | DBUS_TYPE_STRING (s : string)
  | DBUS_TYPE_ARRAY (elem_signature : string) (elems : list dbus_arg)
  | DBUS_TYPE_STRUCT (fields : list dbus_arg).

Fixpoint arg_signature (a : dbus_arg) : string :=
  match a with
  | DBUS_TYPE_BYTE _ => "y"
  | DBUS_TYPE_BOOLEAN _ => "b"
  | DBUS_TYPE_INT32 _ => "i"
  | DBUS_TYPE_UINT32 _ => "u"
  | DBUS_TYPE_STRING _ => "s"
  | DBUS_TYPE_ARRAY sig _ => "a" +:+ sig
  | DBUS_TYPE_STRUCT fields =>
      "(" +:+
      (fix go (l : list dbus_arg) : string :=
         match l with
         | [] => ""
         | x :: r => arg_signature x +:+ go r
         end) fields +:+ ")"
  end.

(** The header fields the file reads or sets, and the body.  For an error
    message [msg_error_name] is the error name; the error text given to
    [dbus_message_new_error] is the first argument of the body. *)
Record DBusMessage := {
  msg_type : dbus_message_type;
  msg_destination : string;
  msg_path : string;
  msg_interface : string;
  msg_member : string;
  msg_error_name : string;
  msg_args : list dbus_arg;
}.

Definition dbus_message_get_member (m : DBusMessage) : string := msg_member m.
Definition dbus_message_get_interface (m : DBusMessage) : string :=
  msg_interface m.

Definition dbus_message_get_signature (m : DBusMessage) : string :=
  foldr (λ a acc, arg_signature a +:+ acc) "" (msg_args m).

Definition dbus_message_new_method_return (call : DBusMessage) : DBusMessage :=
  {| msg_type := DBUS_MESSAGE_TYPE_METHOD_RETURN;
     msg_destination := ""; msg_path := "";
     msg_interface := ""; msg_member := ""; msg_error_name := "";
     msg_args := [] |}.

Definition dbus_message_new_error (reply_to : DBusMessage)
    (error_name error_message : string) : DBusMessage :=
  {| msg_type := DBUS_MESSAGE_TYPE_ERROR;
     msg_destination := ""; msg_path := "";
     msg_interface := ""; msg_member := ""; msg_error_name := error_name;
     msg_args := [DBUS_TYPE_STRING error_message] |}.

Definition dbus_message_new_signal (path interface name : string)
    : DBusMessage :=
  {| msg_type := DBUS_MESSAGE_TYPE_SIGNAL;
     msg_destination := ""; msg_path := path;
     msg_interface := interface; msg_member := name; msg_error_name := "";
     msg_args := [] |}.

Definition dbus_message_new_method_call
    (destination path interface method : string) : DBusMessage :=
  {| msg_type := DBUS_MESSAGE_TYPE_METHOD_CALL;
     msg_destination := destination; msg_path := path;
     msg_interface := interface; msg_member := method; msg_error_name := "";
     msg_args := [] |}.

(** [dbus_message_append_args] and [dbus_message_iter_append_basic]. *)
Definition dbus_message_append_args (m : DBusMessage) (l : list dbus_arg)
    : DBusMessage :=
  {| msg_type := msg_type m; msg_destination := msg_destination m;
     msg_path := msg_path m;
     msg_interface := msg_interface m; msg_member := msg_member m;
     msg_error_name := msg_error_name m; msg_args := msg_args m ++ l |}.

(** [snprintf(buf, size, ...)]: at most [size - 1] characters are kept. *)
Definition snprintf (size : nat) (s : string) : string :=
  String.substring 0 (size - 1) s.

Definition MAX_PATH_LENGTH : nat := 64.

(** [PATH_MAX] of limits.h, as Linux defines it. *)
Definition PATH_MAX : nat := 4096.

(** ** Controller transport *)

Definition bdaddr_t : Type := list Z.

(** Command parameters ([cparam]) of the requests and commands sent. *)
Inductive hci_param : Type :=
  | no_cp
  | write_scan_enable_cp (hci_mode : Z)
  | inquiry_cp (lap : list Z) (length num_rsp : Z)
  | remote_name_req_cp (bdaddr : bdaddr_t) (pscan_rep_mode : Z)
  | auth_requested_cp (handle : Z)
  | change_local_name_cp (name : string)
  | pin_code_reply_cp (bdaddr : bdaddr_t) (pin_code : string) (pin_len : Z)
  | bdaddr_cp (bdaddr : bdaddr_t).

(** What [hci_send_req] leaves behind: its return value and the response
    parameters ([rparam]): a status byte, and the value read (the [enable]
    byte of [read_scan_enable_rp], the [name] of [read_local_name_rp]). *)
Record hci_response := {
  rq_ret : Z;
  rp_status : Z;
  rp_enable : Z;
  rp_name : string;
}.

Record hci_dev_info := {
  di_name : string;
  di_bdaddr : bdaddr_t;
  di_type : Z;
}.

(** One entry of the list [HCIGETDEVLIST] returns. *)
Record hci_dev_req := {
  dr_dev_id : Z;
  dr_dev_opt : Z;
}.

(** ** The environment *)

Record World := {
  (* libbluetooth and the kernel *)
  w_hci_open_dev : Z → Z;
  w_hci_send_req : Z → hci_ogf → hci_ocf → hci_param → hci_response;
  w_hci_devinfo : Z → option hci_dev_info;
  w_hci_devid : string → Z;
  w_hci_get_route : Z;
  w_find_conn : bdaddr_t → Z;
  w_HCIGETCONNINFO : Z → bdaddr_t → option Z;
  w_socket : Z;
  w_HCIGETDEVLIST : option (list hci_dev_req);
  w_HCIGETDEVINFO : Z → option hci_dev_info;
  w_hci_dtypetostr : Z → string;
  w_ba2str : bdaddr_t → string;
  w_batostr : bdaddr_t → string;
  w_str2ba : string → bdaddr_t;
  (* hcid.h and textfile.h *)
  w_get_device_address : Z → string;
  w_get_device_version : Z → string;
  w_get_device_revision : Z → string;
  w_get_device_manufacturer : Z → string;
  w_get_device_company : Z → string;
  w_STORAGEDIR : string;
  w_textfile_get : string → string → option string;
  (* the C library *)
  w_errno : Z;
  w_strerror : Z → string;
  w_malloc : bool;
  w_indeterminate : Z;
  (* libdbus *)
  w_dbus_bus_get : bool;
  w_dbus_bus_request_name : bool;
  w_dbus_connection_add_filter : bool;
  w_dbus_message_new : bool;
  w_dbus_connection_register_object_path : string → bool;
  w_dbus_connection_register_fallback : string → bool;
  w_dbus_connection_unregister_object_path : string → bool;
  w_dbus_connection_send : DBusMessage → bool;
  w_dbus_connection_send_with_reply : DBusMessage → bool;
}.

(** ** Program state *)

Record hci_dbus_data := {
  dev_id : Z;
  path_id : Z;
  path_data : Z;
}.

Inductive DBusObjectPathVTable : Set := obj_dev_vtable | obj_mgr_vtable.

(** A registered object path: its vtable, whether it was registered as a
    fallback, and the user data bound to it. *)
Record object_path := {
  op_vtable : DBusObjectPathVTable;
  op_fallback : bool;
  op_data : hci_dbus_data;
}.

Record pin_request := {
  req_dev : Z;
  req_bda : bdaddr_t;
}.

(** What the C language leaves undefined in this file. *)
Inductive undefined_op : Set :=
  | null_pointer_write
  | buffer_overrun.

(** A call logged in the trace.  [handler_func_call] records that a router
    called the handler of the table entry with that name and signature;
    [free_call path] is the [free] of the user data bound to [path];
    [undefined_behaviour] is an operation without defined behaviour, after
    which the run means nothing. *)
Inductive effect : Type :=
  | hci_open_dev_call (dev_id : Z)
  | hci_send_req_call (dd : Z) (ogf : hci_ogf) (ocf : hci_ocf)
      (cparam : hci_param) (timeout : Z)
  | hci_send_cmd_call (dev : Z) (ogf : hci_ogf) (ocf : hci_ocf)
      (param : hci_param)
  | close_call (dd : Z)
  | hci_close_dev_call (dd : Z)
  | dbus_connection_send_call (m : DBusMessage)
  | dbus_connection_send_with_reply_call (m : DBusMessage) (timeout : Z)
  | handler_func_call (name signature : string)
  | socket_call
  | free_call (path : string)
  | undefined_behaviour (op : undefined_op).

Record hcid_state := {
  connection : bool;
  default_dev : Z;
  object_tree : gmap string object_path;
  pending : list pin_request;
  trace : list effect;
}.

(** ** The state monad *)

Definition M (A : Type) : Type := hcid_state → A * hcid_state.

Definition ret {A : Type} (a : A) : M A := λ s, (a, s).

Definition bind {A B : Type} (m : M A) (f : A → M B) : M B :=
  λ s, let (a, s') := m s in f a s'.

Notation "'let*' x := m 'in' k" := (bind m (λ x, k))
  (at level 10, x name, m at level 100, k at level 200,
   format "'[v' 'let*'  x  :=  m  'in' '/' k ']'").
Notation "m ;;; k" := (bind m (λ _, k))
  (at level 100, k at level 200, right associativity,
   format "'[v' m  ;;; '/' k ']'").

Definition get_state : M hcid_state := λ s, (s, s).

Definition log (e : effect) : M unit :=
  λ s, (tt, {| connection := connection s; default_dev := default_dev s;
               object_tree := object_tree s; pending := pending s;
               trace := trace s ++ [e] |}).

Definition set_connection (c : bool) : M unit :=
  λ s, (tt, {| connection := c; default_dev := default_dev s;
               object_tree := object_tree s; pending := pending s;
               trace := trace s |}).

Definition set_default_dev (d : Z) : M unit :=
  λ s, (tt, {| connection := connection s; default_dev := d;
               object_tree := object_tree s; pending := pending s;
               trace := trace s |}).

Definition set_object_tree (t : gmap string object_path) : M unit :=
  λ s, (tt, {| connection := connection s; default_dev := default_dev s;
               object_tree := t; pending := pending s;
               trace := trace s |}).


Definition when (b : bool) (m : M unit) : M unit := if b then m else ret tt.

Section hcid_dbus.

Context {dbus_header : dbus_h} {hci_header : hci_h}.
Variable w : World.

(** ** Calls into libbluetooth and libdbus *)

Definition hci_open_dev (id : Z) : M Z :=
  log (hci_open_dev_call id) ;;; ret (w_hci_open_dev w id).

Definition hci_send_req (dd : Z) (ogf : hci_ogf) (ocf : hci_ocf)
    (cparam : hci_param) (to : Z) : M hci_response :=
  log (hci_send_req_call dd ogf ocf cparam to) ;;;
  ret (w_hci_send_req w dd ogf ocf cparam).


(** [socket(AF_BLUETOOTH, SOCK_RAW, BTPROTO_HCI)]. *)
Definition socket : M Z := log socket_call ;;; ret (w_socket w).

Definition close (dd : Z) : M unit := log (close_call dd).

Definition hci_close_dev (dd : Z) : M unit := log (hci_close_dev_call dd).

Definition dbus_connection_send (m : DBusMessage) : M bool :=
  log (dbus_connection_send_call m) ;;; ret (w_dbus_connection_send w m).


(** [dbus_connection_get_object_path_data]: the user data bound to [path],
    [None] for the NULL it yields when nothing is bound there. *)
Definition dbus_connection_get_object_path_data (path : string)
    : M (option hci_dbus_data) :=
  let* s := get_state in
  ret (op_data <$> object_tree s !! path).

(** ** Utility functions *)

Definition get_device_name (local peer : bdaddr_t) : option string :=
  let addr := w_ba2str w local in
  let filename :=
    snprintf PATH_MAX (w_STORAGEDIR w +:+ "/" +:+ addr +:+ "/names") in
  let addr := w_ba2str w peer in
  w_textfile_get w filename addr.

(** The path [snprintf(path, sizeof(path), "%s/hci%d", DEVICE_PATH, id)]. *)
Definition device_path (id : Z) : string :=
  snprintf MAX_PATH_LENGTH (DEVICE_PATH +:+ "/hci" +:+ pretty id).

(** ** D-Bus error messages *)

Record bluez_error_t := {
  code : Z;
  str : option string;
}.

Definition dbus_error_array : list bluez_error_t := [
  {| code := BLUEZ_EDBUS_UNKNOWN_METHOD; str := Some "Method not found" |};
  {| code := BLUEZ_EDBUS_WRONG_SIGNATURE;
     str := Some "Wrong method signature" |};
  {| code := BLUEZ_EDBUS_WRONG_PARAM; str := Some "Invalid parameters" |};
  {| code := BLUEZ_EDBUS_RECORD_NOT_FOUND; str := Some "No record found" |};
  {| code := BLUEZ_EDBUS_NO_MEM; str := Some "No memory" |};
  {| code := BLUEZ_EDBUS_CONN_NOT_FOUND;
     str := Some "Connection not found" |};
  {| code := BLUEZ_EDBUS_UNKNOWN_PATH; str := Some "Unknown D-BUS path" |};
  {| code := BLUEZ_EDBUS_NOT_IMPLEMENTED;
     str := Some "Method not implemented" |};
  {| code := 0; str := None |} ].

Definition hci_error (m : hci_error_macro) (text : string) : bluez_error_t :=
  {| code := hci_error_code m; str := Some text |}.

Definition hci_error_array : list bluez_error_t := [
  hci_error HCI_UNKNOWN_COMMAND "Unknown HCI Command";
  hci_error HCI_NO_CONNECTION "Unknown Connection Identifier";
  hci_error HCI_HARDWARE_FAILURE "Hardware Failure";
  hci_error HCI_PAGE_TIMEOUT "Page Timeout";
  hci_error HCI_AUTHENTICATION_FAILURE "Authentication Failure";
  hci_error HCI_PIN_OR_KEY_MISSING "PIN Missing";
  hci_error HCI_MEMORY_FULL "Memory Capacity Exceeded";
  hci_error HCI_CONNECTION_TIMEOUT "Connection Timeout";
  hci_error HCI_MAX_NUMBER_OF_CONNECTIONS "Connection Limit Exceeded";
  hci_error HCI_MAX_NUMBER_OF_SCO_CONNECTIONS
    "Synchronous Connection Limit To A Device Exceeded";
  hci_error HCI_ACL_CONNECTION_EXISTS "ACL Connection Already Exists";
  hci_error HCI_COMMAND_DISALLOWED "Command Disallowed";
  hci_error HCI_REJECTED_LIMITED_RESOURCES
    "Connection Rejected due to Limited Resources";
  hci_error HCI_REJECTED_SECURITY
    "Connection Rejected Due To Security Reasons";
  hci_error HCI_REJECTED_PERSONAL
    "Connection Rejected due to Unacceptable BD_ADDR";
  hci_error HCI_HOST_TIMEOUT "Connection Accept Timeout Exceeded";
  hci_error HCI_UNSUPPORTED_FEATURE "Unsupported Feature or Parameter Value";
  hci_error HCI_INVALID_PARAMETERS "Invalid HCI Command Parameters";
  hci_error HCI_OE_USER_ENDED_CONNECTION "Remote User Terminated Connection";
  hci_error HCI_OE_LOW_RESOURCES
    "Remote Device Terminated Connection due to Low Resources";
  hci_error HCI_OE_POWER_OFF
    "Remote Device Terminated Connection due to Power Off";
  hci_error HCI_CONNECTION_TERMINATED "Connection Terminated By Local Host";
  hci_error HCI_REPEATED_ATTEMPTS "Repeated Attempts";
  hci_error HCI_PAIRING_NOT_ALLOWED "Pairing Not Allowed";
  hci_error HCI_UNKNOWN_LMP_PDU "Unknown LMP PDU";
  hci_error HCI_UNSUPPORTED_REMOTE_FEATURE "Unsupported Remote Feature";
  hci_error HCI_SCO_OFFSET_REJECTED "SCO Offset Rejected";
  hci_error HCI_SCO_INTERVAL_REJECTED "SCO Interval Rejected";
  hci_error HCI_AIR_MODE_REJECTED "SCO Air Mode Rejected";
  hci_error HCI_INVALID_LMP_PARAMETERS "Invalid LMP Parameters";
  hci_error HCI_UNSPECIFIED_ERROR "Unspecified Error";
  hci_error HCI_UNSUPPORTED_LMP_PARAMETER_VALUE
    "Unsupported LMP Parameter Value";
  hci_error HCI_ROLE_CHANGE_NOT_ALLOWED "Role Change Not Allowed";
  hci_error HCI_LMP_RESPONSE_TIMEOUT "LMP Response Timeout";
  hci_error HCI_LMP_ERROR_TRANSACTION_COLLISION
    "LMP Error Transaction Collision";
  hci_error HCI_LMP_PDU_NOT_ALLOWED "LMP PDU Not Allowed";
  hci_error HCI_ENCRYPTION_MODE_NOT_ACCEPTED "Encryption Mode Not Acceptable";
  hci_error HCI_UNIT_LINK_KEY_USED "Link Key Can Not be Changed";
  hci_error HCI_QOS_NOT_SUPPORTED "Requested QoS Not Supported";
  hci_error HCI_INSTANT_PASSED "Instant Passed";
  hci_error HCI_PAIRING_NOT_SUPPORTED "Pairing With Unit Key Not Supported";
  hci_error HCI_TRANSACTION_COLLISION "Different Transaction Collision";
  hci_error HCI_QOS_UNACCEPTABLE_PARAMETER "QoS Unacceptable Parameter";
  hci_error HCI_QOS_REJECTED "QoS Rejected";
  hci_error HCI_CLASSIFICATION_NOT_SUPPORTED
    "Channel Classification Not Supported";
  hci_error HCI_INSUFFICIENT_SECURITY "Insufficient Security";
  hci_error HCI_PARAMETER_OUT_OF_RANGE "Parameter Out Of Mandatory Range";
  hci_error HCI_ROLE_SWITCH_PENDING "Role Switch Pending";
  hci_error HCI_SLOT_VIOLATION "Reserved Slot Violation";
  hci_error HCI_ROLE_SWITCH_FAILED "Role Switch Failed";
  {| code := 0; str := None |} ].

(** The loop [for (ptr = array; ptr->code; ptr++) if (ptr->code == ecode)
    return ptr->str;]: it stops at the first entry whose code is zero. *)
Fixpoint error_array_lookup (array : list bluez_error_t) (ecode : Z)
    : option string :=
  match array with
  | [] => None
  | ptr :: array' =>
      if decide (code ptr = 0) then None
      else if decide (code ptr = ecode) then str ptr
      else error_array_lookup array' ecode
  end.

Definition bluez_dbus_error_to_str (ecode : Z) : option string :=
  if decide (Z.land ecode BLUEZ_ESYSTEM_OFFSET ≠ 0) then
    (* System error *)
    let raw_code := Z.land (uint32 (Z.lnot BLUEZ_ESYSTEM_OFFSET)) ecode in
    Some (w_strerror w raw_code)
  else if decide (Z.land ecode BLUEZ_EDBUS_OFFSET ≠ 0) then
    (* D-Bus error *)
    error_array_lookup dbus_error_array ecode
  else
    (* BLUEZ_EBT_OFFSET - Bluetooth HCI errors *)
    error_array_lookup hci_error_array ecode.

(** [ecode] is a [uint32_t]; callers that compute it reduce it first. *)
Definition bluez_new_failure_msg (msg : DBusMessage) (ecode : Z)
    : option DBusMessage :=
  match bluez_dbus_error_to_str ecode with
  | None => None
  | Some error_msg =>
      let reply := dbus_message_new_error msg ERROR_INTERFACE error_msg in
      Some (dbus_message_append_args reply [DBUS_TYPE_UINT32 ecode])
  end.

(** ** Object paths *)

Definition register_dbus_path (path : string) (path_id dev_id : Z)
    (pvtable : DBusObjectPathVTable) (fallback : bool) : M bool :=
  if negb (w_malloc w) then ret false
  else
    (* [path_data] is not initialised here *)
    let data := {| dev_id := dev_id; path_id := path_id;
                   path_data := w_indeterminate w |} in
    let registered :=
      if fallback then w_dbus_connection_register_fallback w path
      else w_dbus_connection_register_object_path w path in
    if negb registered then ret false
    else
      let* s := get_state in
      set_object_tree
        (<[path := {| op_vtable := pvtable; op_fallback := fallback;
                      op_data := data |}]> (object_tree s)) ;;;
      ret true.

(** The user data bound to [path] are freed first.  When
    [dbus_connection_unregister_object_path] then fails, the path stays
    bound, to the pointer that has just been freed: the tree keeps the
    binding, and the trace holds the [free]. *)
Definition unregister_dbus_path (path : string) : M bool :=
  let* data := dbus_connection_get_object_path_data path in
  match data with
  | Some _ => log (free_call path)
  | None => ret tt
  end ;;;
  if negb (w_dbus_connection_unregister_object_path w path) then ret false
  else
    let* s := get_state in
    set_object_tree (delete path (object_tree s)) ;;;
    ret true.

(** [pdata->path_data = v] for the [pdata] that
    [dbus_connection_get_object_path_data(connection, path, &pdata)]
    yields: the value is recorded in the data bound to [path]; when
    nothing is bound there [pdata] is NULL and the write goes through
    it. *)
Definition set_path_data (path : string) (v : Z) : M unit :=
  let* s := get_state in
  match object_tree s !! path with
  | None => log (undefined_behaviour null_pointer_write)
  | Some op =>
      let data := {| dev_id := dev_id (op_data op);
                     path_id := path_id (op_data op); path_data := v |} in
      set_object_tree
        (<[path := {| op_vtable := op_vtable op;
                      op_fallback := op_fallback op;
                      op_data := data |}]> (object_tree s))
  end.

(** ** HCI events: device attached and detached *)

Definition hcid_dbus_register_device (id : Z) : M bool :=
  let path := device_path id in
  let* ret_ :=
    register_dbus_path path DEVICE_PATH_ID id obj_dev_vtable false in
  let* dd := hci_open_dev id in
  let* enable :=
    if decide (dd < 0) then ret (Z.lor SCAN_PAGE SCAN_INQUIRY)
    else
      let* rp :=
        hci_send_req dd OGF_HOST_CTL OCF_READ_SCAN_ENABLE no_cp 500 in
      if decide (rq_ret rp < 0) then ret (Z.lor SCAN_PAGE SCAN_INQUIRY)
      else if decide (uint8 (rp_status rp) ≠ 0) then
        ret (Z.lor SCAN_PAGE SCAN_INQUIRY)
      else ret (uint8 (rp_enable rp)) in
  let* pdata := dbus_connection_get_object_path_data path in
  match pdata with
  | None =>
      (* nothing is bound to [path]: [pdata] is NULL and
         [pdata->path_data = rp.enable] writes through it *)
      log (undefined_behaviour null_pointer_write) ;;;
      ret ret_
  | Some _ =>
      (* Keep the current scan status *)
      set_path_data path enable ;;;
      (if negb (w_dbus_message_new w) then ret tt
       else
         let message :=
           dbus_message_append_args
             (dbus_message_new_signal MANAGER_PATH MANAGER_INTERFACE
                BLUEZ_MGR_DEV_ADDED)
             [DBUS_TYPE_STRING path] in
         let* sent := dbus_connection_send message in
         ret tt) ;;;
      let* s := get_state in
      when (ret_ && bool_decide (default_dev s < 0)) (set_default_dev id) ;;;
      when (bool_decide (dd >= 0)) (close dd) ;;;
      ret ret_
  end.

Definition hcid_dbus_unregister_device (id : Z) : M bool :=
  let path := device_path id in
  (if negb (w_dbus_message_new w) then ret tt
   else
     let message :=
       dbus_message_append_args
         (dbus_message_new_signal MANAGER_PATH MANAGER_INTERFACE
            BLUEZ_MGR_DEV_REMOVED)
         [DBUS_TYPE_STRING path] in
     let* sent := dbus_connection_send message in
     ret tt) ;;;
  let* ret_ := unregister_dbus_path path in
  let* s := get_state in
  when (ret_ && bool_decide (default_dev s = id))
    (set_default_dev (w_hci_get_route w)) ;;;
  ret ret_.

(** The loop of [reconnect_timer_handler] over the devices the kernel
    lists: [for (i = 0; i < dl->dev_num; i++, dr++)
    hcid_dbus_register_device(dr->dev_id);]. *)
Fixpoint register_devices (ids : list Z) : M unit :=
  match ids with
  | [] => ret tt
  | id :: ids' =>
      let* registered := hcid_dbus_register_device id in
      register_devices ids'
  end.

(** ** Bus connection *)

Definition hcid_dbus_init : M bool :=
  (* [dbus_bus_get] returns NULL when the error is set *)
  set_connection (w_dbus_bus_get w) ;;;
  if negb (w_dbus_bus_get w) then ret false
  else if negb (w_dbus_bus_request_name w) then ret false
  else
    let* r := register_dbus_path DEVICE_PATH DEVICE_ROOT_ID INVALID_DEV_ID
                obj_dev_vtable true in
    if negb r then ret false
    else
      let* r := register_dbus_path MANAGER_PATH MANAGER_ROOT_ID
                  INVALID_DEV_ID obj_mgr_vtable false in
      if negb r then ret false
      else if negb (w_dbus_connection_add_filter w) then ret false
      else ret true.

(** ** PIN requests *)


Record hci_conn_info := {
  ci_bdaddr : bdaddr_t;
  ci_out : Z;
}.





(** ** Device services *)

Definition service_handler_func_t : Type :=
  DBusMessage → hci_dbus_data → M (option DBusMessage).

Record service_data := {
  name : string;
  handler_func : service_handler_func_t;
  signature : string;
}.

(** The first argument of the call read as a string, as
    [dbus_message_get_args] or [dbus_message_iter_get_basic] do. *)
Definition first_string_arg (msg : DBusMessage) : string :=
  match msg_args msg with
  | DBUS_TYPE_STRING s :: _ => s
  | _ => ""
  end.

Definition string_reply (msg : DBusMessage) (s : string) : DBusMessage :=
  dbus_message_append_args (dbus_message_new_method_return msg)
    [DBUS_TYPE_STRING s].

Definition not_implemented : service_handler_func_t :=
  λ msg data, ret (bluez_new_failure_msg msg BLUEZ_EDBUS_NOT_IMPLEMENTED).

Definition handle_dev_get_address_req : service_handler_func_t :=
  λ msg data, ret (Some (string_reply msg (w_get_device_address w (dev_id data)))).

Definition handle_dev_get_version_req : service_handler_func_t :=
  λ msg data, ret (Some (string_reply msg (w_get_device_version w (dev_id data)))).

Definition handle_dev_get_revision_req : service_handler_func_t :=
  λ msg data, ret (Some (string_reply msg (w_get_device_revision w (dev_id data)))).

Definition handle_dev_get_manufacturer_req : service_handler_func_t :=
  λ msg data,
    ret (Some (string_reply msg (w_get_device_manufacturer w (dev_id data)))).

Definition handle_dev_get_company_req : service_handler_func_t :=
  λ msg data, ret (Some (string_reply msg (w_get_device_company w (dev_id data)))).

Definition handle_dev_get_features_req := not_implemented.
Definition handle_dev_get_alias_req := not_implemented.
Definition handle_dev_get_discoverable_to_req := not_implemented.

(** The [switch (hci_mode)] of [handle_dev_get_mode_req]. *)
Definition scan_mode_of_hci_mode (hci_mode : Z) : Z :=
  if decide (hci_mode = SCAN_DISABLED) then MODE_OFF
  else if decide (hci_mode = SCAN_PAGE) then MODE_CONNECTABLE
  else if decide (hci_mode = Z.lor SCAN_PAGE SCAN_INQUIRY) then
    MODE_DISCOVERABLE
  else
    (* inquiry scan mode is not handled, return 0xff; reserved *)
    255.

Definition handle_dev_get_mode_req : service_handler_func_t :=
  λ msg data,
    let hci_mode := uint8 (path_data data) in
    let scan_mode := uint8 (scan_mode_of_hci_mode hci_mode) in
    let reply := dbus_message_new_method_return msg in
    ret (Some (dbus_message_append_args reply [DBUS_TYPE_BYTE scan_mode])).

Definition handle_dev_get_name_req : service_handler_func_t :=
  λ msg data,
    let* dd := hci_open_dev (dev_id data) in
    if decide (dd < 0) then
      ret (bluez_new_failure_msg msg BLUEZ_ESYSTEM_ENODEV)
    else
      let* rp := hci_send_req dd OGF_HOST_CTL OCF_READ_LOCAL_NAME no_cp 100 in
      let* reply :=
        if decide (rq_ret rp < 0) then
          ret (bluez_new_failure_msg msg
                 (uint32 (BLUEZ_ESYSTEM_OFFSET + w_errno w)))
        else if decide (uint8 (rp_status rp) ≠ 0) then
          ret (bluez_new_failure_msg msg
                 (uint32 (BLUEZ_EBT_OFFSET + uint8 (rp_status rp))))
        else if negb (w_dbus_message_new w) then ret None
        else
          let name := String.substring 0 248 (rp_name rp) in
          ret (Some (string_reply msg name)) in
      close dd ;;;
      ret reply.

Definition handle_dev_is_connectable_req := not_implemented.
Definition handle_dev_is_discoverable_req := not_implemented.
Definition handle_dev_set_alias_req := not_implemented.
Definition handle_dev_set_class_req := not_implemented.
Definition handle_dev_set_discoverable_to_req := not_implemented.

(** The [switch (scan_mode)] of [handle_dev_set_mode_req]; [None] is the
    default case (invalid mode). *)
Definition hci_mode_of_scan_mode (scan_mode : Z) : option Z :=
  if decide (scan_mode = MODE_OFF) then Some SCAN_DISABLED
  else if decide (scan_mode = MODE_CONNECTABLE) then Some SCAN_PAGE
  else if decide (scan_mode = MODE_DISCOVERABLE) then
    Some (Z.lor SCAN_PAGE SCAN_INQUIRY)
  else None.

Definition handle_dev_set_mode_req : service_handler_func_t :=
  λ msg data,
    let current_mode := uint8 (path_data data) in
    let scan_mode :=
      match msg_args msg with
      | DBUS_TYPE_BYTE b :: _ => uint8 b
      | _ => uint8 (w_indeterminate w)
      end in
    match hci_mode_of_scan_mode scan_mode with
    | None => ret (bluez_new_failure_msg msg BLUEZ_EDBUS_WRONG_PARAM)
    | Some hci_mode =>
        let hci_mode := uint8 hci_mode in
        let* dd := hci_open_dev (dev_id data) in
        if decide (dd < 0) then
          ret (bluez_new_failure_msg msg BLUEZ_ESYSTEM_ENODEV)
        else
          let* reply :=
            (* Check if the new requested mode is different from the
               current *)
            if decide (current_mode ≠ hci_mode) then
              let* rp := hci_send_req dd OGF_HOST_CTL OCF_WRITE_SCAN_ENABLE
                           (write_scan_enable_cp hci_mode) 100 in
              if decide (rq_ret rp < 0) then
                ret (bluez_new_failure_msg msg
                       (uint32 (Z.lor BLUEZ_ESYSTEM_OFFSET (w_errno w))))
              else if decide (uint8 (rp_status rp) ≠ 0) then
                ret (bluez_new_failure_msg msg
                       (uint32 (Z.lor BLUEZ_EBT_OFFSET
                                  (uint8 (rp_status rp)))))
              else ret (Some (dbus_message_new_method_return msg))
            else ret (Some (dbus_message_new_method_return msg)) in
          close dd ;;;
          ret reply
    end.

Definition handle_dev_set_name_req : service_handler_func_t :=
  λ msg data,
    let str_name := first_string_arg msg in
    if decide (String.length str_name = 0%nat) then
      ret (bluez_new_failure_msg msg BLUEZ_EDBUS_WRONG_PARAM)
    else
      let* dd := hci_open_dev (dev_id data) in
      if decide (dd < 0) then
        ret (bluez_new_failure_msg msg BLUEZ_ESYSTEM_ENODEV)
      else
        let cp := change_local_name_cp (String.substring 0 248 str_name) in
        let* rp :=
          hci_send_req dd OGF_HOST_CTL OCF_CHANGE_LOCAL_NAME cp 100 in
        let reply :=
          if decide (rq_ret rp < 0) then
            bluez_new_failure_msg msg
              (uint32 (BLUEZ_ESYSTEM_OFFSET + w_errno w))
          else if decide (uint8 (rp_status rp) ≠ 0) then
            bluez_new_failure_msg msg
              (uint32 (BLUEZ_EBT_OFFSET + uint8 (rp_status rp)))
          else Some (dbus_message_new_method_return msg) in
        close dd ;;;
        ret reply.

Definition handle_dev_discover_req : service_handler_func_t :=
  λ msg data,
    let length := 8 in
    let num_rsp := 0 in
    let lap := 10390323 (* 0x9e8b33 *) in
    let* dd := hci_open_dev (dev_id data) in
    if decide (dd < 0) then
      ret (bluez_new_failure_msg msg
             (uint32 (BLUEZ_ESYSTEM_OFFSET + w_errno w)))
    else
      let cp :=
        inquiry_cp
          [Z.land lap 255; Z.land (Z.shiftr lap 8) 255;
           Z.land (Z.shiftr lap 16) 255]
          length num_rsp in
      let* rp := hci_send_req dd OGF_LINK_CTL OCF_INQUIRY cp 100 in
      let reply :=
        if decide (rq_ret rp < 0) then
          bluez_new_failure_msg msg
            (uint32 (BLUEZ_ESYSTEM_OFFSET + w_errno w))
        else Some (dbus_message_new_method_return msg) in
      hci_close_dev dd ;;;
      ret reply.

Definition handle_dev_discover_cache_req := not_implemented.

Definition handle_dev_discover_cancel_req : service_handler_func_t :=
  λ msg data,
    let* dd := hci_open_dev (dev_id data) in
    if decide (dd < 0) then
      ret (bluez_new_failure_msg msg
             (uint32 (BLUEZ_ESYSTEM_OFFSET + w_errno w)))
    else
      let* rp := hci_send_req dd OGF_LINK_CTL OCF_INQUIRY_CANCEL no_cp 100 in
      let reply :=
        if decide (rq_ret rp < 0) then
          bluez_new_failure_msg msg
            (uint32 (BLUEZ_ESYSTEM_OFFSET + w_errno w))
        else if decide (uint8 (rp_status rp) ≠ 0) then
          bluez_new_failure_msg msg
            (uint32 (BLUEZ_EBT_OFFSET + uint8 (rp_status rp)))
        else Some (dbus_message_new_method_return msg) in
      hci_close_dev dd ;;;
      ret reply.

Definition handle_dev_discover_service_req := not_implemented.
Definition handle_dev_last_seen_req := not_implemented.
Definition handle_dev_last_used_req := not_implemented.
Definition handle_dev_remote_alias_req := not_implemented.

Definition handle_dev_remote_name_req : service_handler_func_t :=
  λ msg data,
    let str_bdaddr := first_string_arg msg in
    let bdaddr := w_str2ba w str_bdaddr in
    match w_hci_devinfo w (dev_id data) with
    | None => ret (bluez_new_failure_msg msg BLUEZ_ESYSTEM_ENODEV)
    | Some di =>
        (* Try retrieve from local cache *)
        match get_device_name (di_bdaddr di) bdaddr with
        | Some name =>
            let reply := dbus_message_new_method_return msg in
            let path := device_path (dev_id data) in
            let signal :=
              dbus_message_append_args
                (dbus_message_new_signal path DEVICE_INTERFACE
                   DEV_SIG_REMOTE_NAME)
                [DBUS_TYPE_STRING str_bdaddr; DBUS_TYPE_STRING name] in
            let* sent := dbus_connection_send signal in
            if negb sent then ret (Some reply)
            else ret (Some (dbus_message_new_method_return msg))
        | None =>
            (* Send HCI command *)
            let* dd := hci_open_dev (dev_id data) in
            if decide (dd < 0) then
              ret (bluez_new_failure_msg msg
                     (uint32 (Z.lor BLUEZ_ESYSTEM_OFFSET (w_errno w))))
            else
              let cp := remote_name_req_cp bdaddr 2 in
              let* rp :=
                hci_send_req dd OGF_LINK_CTL OCF_REMOTE_NAME_REQ cp 100 in
              let reply :=
                if decide (rq_ret rp < 0) then
                  bluez_new_failure_msg msg
                    (uint32 (Z.lor BLUEZ_ESYSTEM_OFFSET (w_errno w)))
                else if decide (uint8 (rp_status rp) ≠ 0) then
                  bluez_new_failure_msg msg
                    (uint32 (Z.lor BLUEZ_EBT_OFFSET (uint8 (rp_status rp))))
                else Some (dbus_message_new_method_return msg) in
              hci_close_dev dd ;;;
              ret reply
        end
    end.

Definition handle_dev_remote_version_req := not_implemented.

Definition handle_dev_create_bonding_req : service_handler_func_t :=
  λ msg data,
    let str_bdaddr := first_string_arg msg in
    let bdaddr := w_str2ba w str_bdaddr in
    (* hci_for_each_dev(HCI_UP, find_conn, (long) &bdaddr) *)
    let dev_id' := w_find_conn w bdaddr in
    if decide (dev_id' < 0) then
      ret (bluez_new_failure_msg msg BLUEZ_EDBUS_CONN_NOT_FOUND)
    else if decide (dev_id data ≠ dev_id') then
      ret (bluez_new_failure_msg msg BLUEZ_EDBUS_CONN_NOT_FOUND)
    else
      let* dd := hci_open_dev dev_id' in
      if decide (dd < 0) then
        ret (bluez_new_failure_msg msg BLUEZ_ESYSTEM_ENODEV)
      else
        let* reply :=
          if negb (w_malloc w) then
            ret (bluez_new_failure_msg msg BLUEZ_EDBUS_NO_MEM)
          else
            match w_HCIGETCONNINFO w dd bdaddr with
            | None =>
                ret (bluez_new_failure_msg msg
                       (uint32 (BLUEZ_ESYSTEM_OFFSET + w_errno w)))
            | Some handle =>
                let* rp := hci_send_req dd OGF_LINK_CTL OCF_AUTH_REQUESTED
                             (auth_requested_cp handle) 100 in
                if decide (rq_ret rp < 0) then
                  ret (bluez_new_failure_msg msg
                         (uint32 (BLUEZ_ESYSTEM_OFFSET + w_errno w)))
                else ret (Some (dbus_message_new_method_return msg))
            end in
        close dd ;;;
        ret reply.

Definition handle_dev_list_bondings_req := not_implemented.
Definition handle_dev_has_bonding_req := not_implemented.
Definition handle_dev_remove_bonding_req := not_implemented.
Definition handle_dev_pin_code_length_req := not_implemented.
Definition handle_dev_encryption_key_size_req := not_implemented.

Definition dev_service (m : dev_method) (f : service_handler_func_t)
    : service_data :=
  {| name := dev_method_name m; handler_func := f;
     signature := dev_method_signature m |}.

Definition dev_services : list service_data := [
  dev_service DEV_GET_ADDRESS handle_dev_get_address_req;
  dev_service DEV_GET_ALIAS handle_dev_get_alias_req;
  dev_service DEV_GET_COMPANY handle_dev_get_company_req;
  dev_service DEV_GET_DISCOVERABLE_TO handle_dev_get_discoverable_to_req;
  dev_service DEV_GET_FEATURES handle_dev_get_features_req;
  dev_service DEV_GET_MANUFACTURER handle_dev_get_manufacturer_req;
  dev_service DEV_GET_MODE handle_dev_get_mode_req;
  dev_service DEV_GET_NAME handle_dev_get_name_req;
  dev_service DEV_GET_REVISION handle_dev_get_revision_req;
  dev_service DEV_GET_VERSION handle_dev_get_version_req;
  dev_service DEV_IS_CONNECTABLE handle_dev_is_connectable_req;
  dev_service DEV_IS_DISCOVERABLE handle_dev_is_discoverable_req;
  dev_service DEV_SET_ALIAS handle_dev_set_alias_req;
  dev_service DEV_SET_CLASS handle_dev_set_class_req;
  dev_service DEV_SET_DISCOVERABLE_TO handle_dev_set_discoverable_to_req;
  dev_service DEV_SET_MODE handle_dev_set_mode_req;
  dev_service DEV_SET_NAME handle_dev_set_name_req;
  dev_service DEV_DISCOVER handle_dev_discover_req;
  dev_service DEV_DISCOVER_CACHE handle_dev_discover_cache_req;
  dev_service DEV_DISCOVER_CANCEL handle_dev_discover_cancel_req;
  dev_service DEV_DISCOVER_SERVICE handle_dev_discover_service_req;
  dev_service DEV_LAST_SEEN handle_dev_last_seen_req;
  dev_service DEV_LAST_USED handle_dev_last_used_req;
  dev_service DEV_REMOTE_ALIAS handle_dev_remote_alias_req;
  dev_service DEV_REMOTE_NAME handle_dev_remote_name_req;
  dev_service DEV_REMOTE_VERSION handle_dev_remote_version_req;
  dev_service DEV_CREATE_BONDING handle_dev_create_bonding_req;
  dev_service DEV_LIST_BONDINGS handle_dev_list_bondings_req;
  dev_service DEV_HAS_BONDING handle_dev_has_bonding_req;
  dev_service DEV_REMOVE_BONDING handle_dev_remove_bonding_req;
  dev_service DEV_PIN_CODE_LENGTH handle_dev_pin_code_length_req;
  dev_service DEV_ENCRYPTION_KEY_SIZE handle_dev_encryption_key_size_req ].

(** ** Manager services *)

Definition dev_flags_map : list (string * hci_flag) := [
  ("INIT", HCI_INIT); ("RUNNING", HCI_RUNNING); ("RAW", HCI_RAW);
  ("PSCAN", HCI_PSCAN); ("ISCAN", HCI_ISCAN); ("INQUIRY", HCI_INQUIRY);
  ("AUTH", HCI_AUTH); ("ENCRYPT", HCI_ENCRYPT); ("SECMGR", HCI_SECMGR) ].

Definition hci_test_bit (nr : Z) (addr : Z) : bool := Z.testbit addr nr.

(** One struct of the array [handle_mgr_device_list_req] returns; a device
    whose [HCIGETDEVINFO] fails is skipped. *)
Definition device_list_entry (dr : hci_dev_req) : list dbus_arg :=
  match w_HCIGETDEVINFO w (dr_dev_id dr) with
  | None => []
  | Some di =>
      let apath :=
        snprintf MAX_PATH_LENGTH (DEVICE_PATH +:+ "/" +:+ di_name di) in
      let aaddr := w_ba2str w (di_bdaddr di) in
      let ptype := w_hci_dtypetostr w (di_type di) in
      let flag :=
        if hci_test_bit (hci_flag_bit HCI_UP) (dr_dev_opt dr) then "UP"
        else "DOWN" in
      let flags :=
        omap (λ mp : string * hci_flag,
                if hci_test_bit (hci_flag_bit mp.2) (dr_dev_opt dr)
                then Some (DBUS_TYPE_STRING mp.1) else None)
             dev_flags_map in
      [DBUS_TYPE_STRUCT
         [DBUS_TYPE_STRING apath; DBUS_TYPE_STRING aaddr;
          DBUS_TYPE_STRING ptype; DBUS_TYPE_STRING flag;
          DBUS_TYPE_ARRAY "s" flags]]
  end.

Definition handle_mgr_device_list_req : service_handler_func_t :=
  λ msg data,
    (* Create and bind HCI socket *)
    let* sk := socket in
    if decide (sk < 0) then
      ret (bluez_new_failure_msg msg
             (uint32 (BLUEZ_ESYSTEM_OFFSET + w_errno w)))
    else
      let reply :=
        if negb (w_malloc w) then
          bluez_new_failure_msg msg BLUEZ_EDBUS_NO_MEM
        else
          match w_HCIGETDEVLIST w with
          | None =>
              bluez_new_failure_msg msg
                (uint32 (BLUEZ_ESYSTEM_OFFSET + w_errno w))
          | Some dl =>
              (* active bluetooth adapter found *)
              if negb (w_dbus_message_new w) then None
              else
                let reply := dbus_message_new_method_return msg in
                Some (dbus_message_append_args reply
                        [DBUS_TYPE_ARRAY
                           MGR_REPLY_DEVICE_LIST_STRUCT_SIGNATURE
                           (dl ≫= device_list_entry)])
          end in
      close sk ;;;
      ret reply.

Definition handle_mgr_default_device_req : service_handler_func_t :=
  λ msg data,
    let* s := get_state in
    if decide (default_dev s < 0) then
      ret (bluez_new_failure_msg msg BLUEZ_ESYSTEM_ENODEV)
    else if negb (w_dbus_message_new w) then ret None
    else ret (Some (string_reply msg (device_path (default_dev s)))).

Definition mgr_service (m : mgr_method) (f : service_handler_func_t)
    : service_data :=
  {| name := mgr_method_name m; handler_func := f;
     signature := mgr_method_signature m |}.

Definition mgr_services : list service_data := [
  mgr_service MGR_DEVICE_LIST handle_mgr_device_list_req;
  mgr_service MGR_DEFAULT_DEVICE handle_mgr_default_device_req ].

(** ** HCI event: scan enable changed *)

Definition baswap (b : bdaddr_t) : bdaddr_t := reverse b.

Definition hcid_dbus_setscan_enable_complete (local : bdaddr_t) : M unit :=
  let local_addr := w_batostr w (baswap local) in
  let id := w_hci_devid w local_addr in
  if decide (id < 0) then ret tt
  else
    let path := device_path id in
    let* dd := hci_open_dev id in
    if decide (dd < 0) then ret tt
    else
      let* rp := hci_send_req dd OGF_HOST_CTL OCF_READ_SCAN_ENABLE no_cp 100 in
      if decide (rq_ret rp < 0) then close dd
      else if decide (uint8 (rp_status rp) ≠ 0) then close dd
      else
        let* pdata := dbus_connection_get_object_path_data path in
        match pdata with
        | None =>
            (* nothing is bound to [path]: [pdata] is NULL and
               [pdata->path_data = rp.enable] writes through it *)
            log (undefined_behaviour null_pointer_write)
        | Some _ =>
            let enable := uint8 (rp_enable rp) in
            (* update the current scan mode value *)
            set_path_data path enable ;;;
            (if decide (enable = SCAN_DISABLED ∨ enable = SCAN_PAGE
                        ∨ enable = Z.lor SCAN_PAGE SCAN_INQUIRY) then
               let scan_mode := uint8 (scan_mode_of_hci_mode enable) in
               if negb (w_dbus_message_new w) then ret tt
               else
                 let message :=
                   dbus_message_append_args
                     (dbus_message_new_signal path DEVICE_INTERFACE
                        DEV_SIG_MODE_CHANGED)
                     [DBUS_TYPE_BYTE scan_mode] in
                 let* sent := dbus_connection_send message in
                 ret tt
             else
               (* ignore, reserved *)
               ret tt) ;;;
            close dd
        end.

(** ** Request routers *)

Inductive DBusHandlerResult : Set :=
  | DBUS_HANDLER_RESULT_HANDLED
  | DBUS_HANDLER_RESULT_NOT_YET_HANDLED.

(** The local variables [reply], [error] and [ret] of a router. *)
Record router_vars := {
  r_reply : option DBusMessage;
  r_error : Z;
  r_ret : DBusHandlerResult;
}.

Definition call_handler_func (h : service_data) (msg : DBusMessage)
    (data : hci_dbus_data) : M (option DBusMessage) :=
  log (handler_func_call (name h) (signature h)) ;;;
  handler_func h msg data.

(** The tail of both routers: build the failure message when [error] is
    set, send the reply if there is one. *)
Definition send_router_reply (msg : DBusMessage) (v : router_vars)
    : M DBusHandlerResult :=
  let reply :=
    if decide (r_error v ≠ 0) then bluez_new_failure_msg msg (r_error v)
    else r_reply v in
  match reply with
  | Some reply => let* sent := dbus_connection_send reply in ret (r_ret v)
  | None => ret (r_ret v)
  end.

(** The loop of [msg_func_device] over the table: it stops at the first
    entry matching name and signature. *)
Fixpoint msg_func_device_loop (handlers : list service_data)
    (msg : DBusMessage) (data : hci_dbus_data) (v : router_vars)
    : M router_vars :=
  match handlers with
  | [] => ret v
  | h :: handlers' =>
      if decide (name h ≠ dbus_message_get_member msg) then
        msg_func_device_loop handlers' msg data v
      else if decide (signature h = dbus_message_get_signature msg) then
        let* reply := call_handler_func h msg data in
        ret {| r_reply := reply; r_error := 0;
               r_ret := DBUS_HANDLER_RESULT_HANDLED |}
      else
        (* Set the error, but continue looping incase there is another
           method with the same name but a different signature *)
        msg_func_device_loop handlers' msg data
          {| r_reply := r_reply v; r_error := BLUEZ_EDBUS_WRONG_SIGNATURE;
             r_ret := DBUS_HANDLER_RESULT_HANDLED |}
  end.

(** The initial values of [reply], [error] and [ret]. *)
Definition router_vars_init : router_vars :=
  {| r_reply := None; r_error := BLUEZ_EDBUS_UNKNOWN_METHOD;
     r_ret := DBUS_HANDLER_RESULT_NOT_YET_HANDLED |}.

Definition msg_func_device_on (handlers : list service_data)
    (msg : DBusMessage) (data : hci_dbus_data) : M DBusHandlerResult :=
  let v := router_vars_init in
  if decide (path_id data = DEVICE_ROOT_ID) then
    (* Device is down(path unregistered) or the path is wrong *)
    send_router_reply msg
      {| r_reply := None; r_error := BLUEZ_EDBUS_UNKNOWN_PATH;
         r_ret := DBUS_HANDLER_RESULT_HANDLED |}
  else
    (* It's a device path id *)
    let* v := msg_func_device_loop handlers msg data v in
    send_router_reply msg v.

Definition msg_func_device : DBusMessage → hci_dbus_data → M DBusHandlerResult :=
  msg_func_device_on dev_services.

(** The loop of [msg_func_manager]: it has no [break] and visits every
    entry. *)
Fixpoint msg_func_manager_loop (handlers : list service_data)
    (msg : DBusMessage) (data : hci_dbus_data) (v : router_vars)
    : M router_vars :=
  match handlers with
  | [] => ret v
  | h :: handlers' =>
      if decide (name h ≠ dbus_message_get_member msg) then
        msg_func_manager_loop handlers' msg data v
      else if decide (signature h ≠ dbus_message_get_signature msg) then
        msg_func_manager_loop handlers' msg data
          {| r_reply := r_reply v; r_error := BLUEZ_EDBUS_WRONG_SIGNATURE;
             r_ret := DBUS_HANDLER_RESULT_HANDLED |}
      else
        let* reply := call_handler_func h msg data in
        msg_func_manager_loop handlers' msg data
          {| r_reply := reply; r_error := 0;
             r_ret := DBUS_HANDLER_RESULT_HANDLED |}
  end.

Definition msg_func_manager_on (handlers : list service_data)
    (msg : DBusMessage) (data : hci_dbus_data) : M DBusHandlerResult :=
  let v := router_vars_init in
  if decide (dbus_message_get_interface msg ≠ MANAGER_INTERFACE) then
    ret (r_ret v)
  else
    let* v := msg_func_manager_loop handlers msg data v in
    send_router_reply msg v.

Definition msg_func_manager : DBusMessage → hci_dbus_data → M DBusHandlerResult :=
  msg_func_manager_on mgr_services.

(** The bus library calling a function of the file on the object bound to
    [path]: the function receives the user data bound there. *)
Definition on_object_path {A : Type} (path : string)
    (f : hci_dbus_data → M A) : M (option A) :=
  let* pdata := dbus_connection_get_object_path_data path in
  match pdata with
  | None => ret None
  | Some data => let* a := f data in ret (Some a)
  end.

End hcid_dbus.

(** ** A concrete header and environment

    Values for the constants of the two headers, in the layout the error
    codes need (one bit for the system range, one for the D-Bus range,
    controller status codes below both), and an environment in which every
    call succeeds.  They instantiate the general statements below. *)

Definition bluez_dev_method_name (m : dev_method) : string :=
  match m with
  | DEV_GET_ADDRESS => "GetAddress" | DEV_GET_ALIAS => "GetAlias"
  | DEV_GET_COMPANY => "GetCompany"
  | DEV_GET_DISCOVERABLE_TO => "GetDiscoverableTimeOut"
  | DEV_GET_FEATURES => "GetFeatures"
  | DEV_GET_MANUFACTURER => "GetManufacturer" | DEV_GET_MODE => "GetMode"
  | DEV_GET_NAME => "GetName" | DEV_GET_REVISION => "GetRevision"
  | DEV_GET_VERSION => "GetVersion" | DEV_IS_CONNECTABLE => "IsConnectable"
  | DEV_IS_DISCOVERABLE => "IsDiscoverable" | DEV_SET_ALIAS => "SetAlias"
  | DEV_SET_CLASS => "SetClass"
  | DEV_SET_DISCOVERABLE_TO => "SetDiscoverableTimeOut"
  | DEV_SET_MODE => "SetMode" | DEV_SET_NAME => "SetName"
  | DEV_DISCOVER => "Discover" | DEV_DISCOVER_CACHE => "DiscoverCache"
  | DEV_DISCOVER_CANCEL => "CancelDiscovery"
  | DEV_DISCOVER_SERVICE => "DiscoverService"
  | DEV_LAST_SEEN => "LastSeen" | DEV_LAST_USED => "LastUsed"
  | DEV_REMOTE_ALIAS => "RemoteAlias" | DEV_REMOTE_NAME => "RemoteName"
  | DEV_REMOTE_VERSION => "RemoteVersion"
  | DEV_CREATE_BONDING => "CreateBonding"
  | DEV_LIST_BONDINGS => "ListBondings" | DEV_HAS_BONDING => "HasBonding"
  | DEV_REMOVE_BONDING => "RemoveBonding"
  | DEV_PIN_CODE_LENGTH => "PinCodeLength"
  | DEV_ENCRYPTION_KEY_SIZE => "EncryptionKeySize"
  end.

Definition bluez_dev_method_signature (m : dev_method) : string :=
  match m with
  | DEV_SET_MODE => "y"
  | DEV_SET_ALIAS | DEV_SET_NAME | DEV_DISCOVER_SERVICE | DEV_LAST_SEEN
  | DEV_LAST_USED | DEV_REMOTE_ALIAS | DEV_REMOTE_NAME | DEV_REMOTE_VERSION
  | DEV_CREATE_BONDING | DEV_HAS_BONDING | DEV_REMOVE_BONDING
  | DEV_PIN_CODE_LENGTH | DEV_ENCRYPTION_KEY_SIZE => "s"
  | DEV_SET_CLASS | DEV_SET_DISCOVERABLE_TO => "u"
  | _ => ""
  end.

Definition bluez_dbus_h : dbus_h := {|
  BASE_PATH := "/org/bluez";
  BASE_INTERFACE := "org.bluez";
  DEVICE_PATH := "/org/bluez/Device";
  DEVICE_INTERFACE := "org.bluez.Device";
  MANAGER_PATH := "/org/bluez/Manager";
  MANAGER_INTERFACE := "org.bluez.Manager";
  ERROR_INTERFACE := "org.bluez.Error";
  MANAGER_ROOT_ID := 32768;
  DEVICE_ROOT_ID := 16384;
  DEVICE_PATH_ID := 16385;
  INVALID_DEV_ID := 65535;
  BLUEZ_EBT_OFFSET := 0;
  BLUEZ_EDBUS_OFFSET := 65536;
  BLUEZ_ESYSTEM_OFFSET := 131072;
  BLUEZ_EDBUS_UNKNOWN_METHOD := 65537;
  BLUEZ_EDBUS_WRONG_SIGNATURE := 65538;
  BLUEZ_EDBUS_WRONG_PARAM := 65539;
  BLUEZ_EDBUS_RECORD_NOT_FOUND := 65540;
  BLUEZ_EDBUS_NO_MEM := 65541;
  BLUEZ_EDBUS_CONN_NOT_FOUND := 65542;
  BLUEZ_EDBUS_UNKNOWN_PATH := 65543;
  BLUEZ_EDBUS_NOT_IMPLEMENTED := 65544;
  BLUEZ_ESYSTEM_ENODEV := 131072 + 19;
  MODE_OFF := 0;
  MODE_CONNECTABLE := 1;
  MODE_DISCOVERABLE := 2;
  dev_method_name := bluez_dev_method_name;
  dev_method_signature := bluez_dev_method_signature;
  mgr_method_name := λ m,
    match m with
    | MGR_DEVICE_LIST => "ListDevices"
    | MGR_DEFAULT_DEVICE => "DefaultDevice"
    end;
  mgr_method_signature := λ _, "";
  MGR_REPLY_DEVICE_LIST_STRUCT_SIGNATURE := "(sssas)";
  BLUEZ_MGR_DEV_ADDED := "DeviceAdded";
  BLUEZ_MGR_DEV_REMOVED := "DeviceRemoved";
  DEV_SIG_MODE_CHANGED := "ModeChanged";
  DEV_SIG_REMOTE_NAME := "RemoteName";
|}.

(** Status codes as the Bluetooth specification numbers them. *)
Definition bluez_hci_error_code (m : hci_error_macro) : Z :=
  match m with
  | HCI_UNKNOWN_COMMAND => 1 | HCI_NO_CONNECTION => 2
  | HCI_HARDWARE_FAILURE => 3 | HCI_PAGE_TIMEOUT => 4
  | HCI_AUTHENTICATION_FAILURE => 5 | HCI_PIN_OR_KEY_MISSING => 6
  | HCI_MEMORY_FULL => 7 | HCI_CONNECTION_TIMEOUT => 8
  | HCI_MAX_NUMBER_OF_CONNECTIONS => 9
  | HCI_MAX_NUMBER_OF_SCO_CONNECTIONS => 10
  | HCI_ACL_CONNECTION_EXISTS => 11 | HCI_COMMAND_DISALLOWED => 12
  | HCI_REJECTED_LIMITED_RESOURCES => 13 | HCI_REJECTED_SECURITY => 14
  | HCI_REJECTED_PERSONAL => 15 | HCI_HOST_TIMEOUT => 16
  | HCI_UNSUPPORTED_FEATURE => 17 | HCI_INVALID_PARAMETERS => 18
  | HCI_OE_USER_ENDED_CONNECTION => 19 | HCI_OE_LOW_RESOURCES => 20
  | HCI_OE_POWER_OFF => 21 | HCI_CONNECTION_TERMINATED => 22
  | HCI_REPEATED_ATTEMPTS => 23 | HCI_PAIRING_NOT_ALLOWED => 24
  | HCI_UNKNOWN_LMP_PDU => 25 | HCI_UNSUPPORTED_REMOTE_FEATURE => 26
  | HCI_SCO_OFFSET_REJECTED => 27 | HCI_SCO_INTERVAL_REJECTED => 28
  | HCI_AIR_MODE_REJECTED => 29 | HCI_INVALID_LMP_PARAMETERS => 30
  | HCI_UNSPECIFIED_ERROR => 31
  | HCI_UNSUPPORTED_LMP_PARAMETER_VALUE => 32
  | HCI_ROLE_CHANGE_NOT_ALLOWED => 33 | HCI_LMP_RESPONSE_TIMEOUT => 34
  | HCI_LMP_ERROR_TRANSACTION_COLLISION => 35
  | HCI_LMP_PDU_NOT_ALLOWED => 36 | HCI_ENCRYPTION_MODE_NOT_ACCEPTED => 37
  | HCI_UNIT_LINK_KEY_USED => 38 | HCI_QOS_NOT_SUPPORTED => 39
  | HCI_INSTANT_PASSED => 40 | HCI_PAIRING_NOT_SUPPORTED => 41
  | HCI_TRANSACTION_COLLISION => 42 | HCI_QOS_UNACCEPTABLE_PARAMETER => 44
  | HCI_QOS_REJECTED => 45 | HCI_CLASSIFICATION_NOT_SUPPORTED => 46
  | HCI_INSUFFICIENT_SECURITY => 47 | HCI_PARAMETER_OUT_OF_RANGE => 48
  | HCI_ROLE_SWITCH_PENDING => 50 | HCI_SLOT_VIOLATION => 52
  | HCI_ROLE_SWITCH_FAILED => 53
  end.

Definition bluez_hci_h : hci_h := {|
  SCAN_DISABLED := 0;
  SCAN_INQUIRY := 1;
  SCAN_PAGE := 2;
  hci_error_code := bluez_hci_error_code;
  hci_flag_bit := λ f,
    match f with
    | HCI_UP => 0 | HCI_INIT => 1 | HCI_RUNNING => 2 | HCI_PSCAN => 3
    | HCI_ISCAN => 4 | HCI_AUTH => 5 | HCI_ENCRYPT => 6 | HCI_INQUIRY => 7
    | HCI_RAW => 8 | HCI_SECMGR => 9
    end;
|}.

(** An environment in which controller [id] opens as descriptor
    [open id], every request returns [req_ret] with status zero and scan
    enable zero, unregistering a path answers [unregister], the name cache
    answers [cached] for every pair of addresses, and every other call
    succeeds. *)
Definition test_world (open : Z → Z) (req_ret : Z) (unregister : bool)
    (cached : option string) : World := {|
  w_hci_open_dev := open;
  w_hci_send_req := λ _ _ _ _,
    {| rq_ret := req_ret; rp_status := 0; rp_enable := 0;
       rp_name := "hcid" |};
  w_hci_devinfo := λ id,
    Some {| di_name := "hci" +:+ pretty id; di_bdaddr := [1; 2; 3; 4; 5; 6];
            di_type := 0 |};
  w_hci_devid := λ _, 0;
  w_hci_get_route := -1;
  w_find_conn := λ _, 0;
  w_HCIGETCONNINFO := λ _ _, Some 42;
  w_socket := 3;
  w_HCIGETDEVLIST := Some [];
  w_HCIGETDEVINFO := λ _, None;
  w_hci_dtypetostr := λ _, "USB";
  w_ba2str := λ _, "00:00:00:00:00:00";
  w_batostr := λ _, "00:00:00:00:00:00";
  w_str2ba := λ _, [0; 0; 0; 0; 0; 0];
  w_get_device_address := λ _, "00:00:00:00:00:00";
  w_get_device_version := λ _, "";
  w_get_device_revision := λ _, "";
  w_get_device_manufacturer := λ _, "";
  w_get_device_company := λ _, "";
  w_STORAGEDIR := "/var/lib/bluetooth";
  w_textfile_get := λ _ _, cached;
  w_errno := 19;
  w_strerror := λ _, "No such device";
  w_malloc := true;
  w_indeterminate := 0;
  w_dbus_bus_get := true;
  w_dbus_bus_request_name := true;
  w_dbus_connection_add_filter := true;
  w_dbus_message_new := true;
  w_dbus_connection_register_object_path := λ _, true;
  w_dbus_connection_register_fallback := λ _, true;
  w_dbus_connection_unregister_object_path := λ _, unregister;
  w_dbus_connection_send := λ _, true;
  w_dbus_connection_send_with_reply := λ _, true;
|}.

(** Every call succeeds; controller [id] opens as descriptor [id + 3]; the
    name cache is empty. *)
Definition quiet_world : World := test_world (λ id, id + 3) 0 true None.

(** As [quiet_world], but no controller can be opened. *)
Definition unopenable_world : World := test_world (λ _, -1) 0 true None.


(** As [quiet_world], but no path can be unregistered. *)
Definition sticky_world : World := test_world (λ id, id + 3) 0 false None.

Definition initial_state : hcid_state :=
  {| connection := true; default_dev := -1; object_tree := ∅;
     pending := []; trace := [] |}.

(** A method call on [path]. *)
Definition method_call (path interface member : string)
    (args : list dbus_arg) : DBusMessage :=
  dbus_message_append_args
    (dbus_message_new_method_call "org.bluez" path interface member) args.

(** ** Vocabulary of the statements *)

(** [s] with the calls [evs] appended to its trace. *)
Definition logged (s : hcid_state) (evs : list effect) : hcid_state :=
  {| connection := connection s; default_dev := default_dev s;
     object_tree := object_tree s; pending := pending s;
     trace := trace s ++ evs |}.

(** The failure message for [ecode] with text [text]: an error message
    named [ERROR_INTERFACE] whose body is the text and then the code. *)
Definition failure_msg `{dbus_h} (text : string) (ecode : Z) : DBusMessage :=
  {| msg_type := DBUS_MESSAGE_TYPE_ERROR; msg_destination := "";
     msg_path := ""; msg_interface := ""; msg_member := "";
     msg_error_name := ERROR_INTERFACE;
     msg_args := [DBUS_TYPE_STRING text; DBUS_TYPE_UINT32 ecode] |}.

(** The codes of [dbus_error_array], in table order. *)
Definition dbus_error_codes `{dbus_h} : list Z := [
  BLUEZ_EDBUS_UNKNOWN_METHOD; BLUEZ_EDBUS_WRONG_SIGNATURE;
  BLUEZ_EDBUS_WRONG_PARAM; BLUEZ_EDBUS_RECORD_NOT_FOUND; BLUEZ_EDBUS_NO_MEM;
  BLUEZ_EDBUS_CONN_NOT_FOUND; BLUEZ_EDBUS_UNKNOWN_PATH;
  BLUEZ_EDBUS_NOT_IMPLEMENTED ].

(** The macros of [hci_error_array], in table order. *)
Definition hci_error_macros : list hci_error_macro := [
  HCI_UNKNOWN_COMMAND; HCI_NO_CONNECTION; HCI_HARDWARE_FAILURE;
  HCI_PAGE_TIMEOUT; HCI_AUTHENTICATION_FAILURE; HCI_PIN_OR_KEY_MISSING;
  HCI_MEMORY_FULL; HCI_CONNECTION_TIMEOUT; HCI_MAX_NUMBER_OF_CONNECTIONS;
  HCI_MAX_NUMBER_OF_SCO_CONNECTIONS; HCI_ACL_CONNECTION_EXISTS;
  HCI_COMMAND_DISALLOWED; HCI_REJECTED_LIMITED_RESOURCES;
  HCI_REJECTED_SECURITY; HCI_REJECTED_PERSONAL; HCI_HOST_TIMEOUT;
  HCI_UNSUPPORTED_FEATURE; HCI_INVALID_PARAMETERS;
  HCI_OE_USER_ENDED_CONNECTION; HCI_OE_LOW_RESOURCES; HCI_OE_POWER_OFF;
  HCI_CONNECTION_TERMINATED; HCI_REPEATED_ATTEMPTS; HCI_PAIRING_NOT_ALLOWED;
  HCI_UNKNOWN_LMP_PDU; HCI_UNSUPPORTED_REMOTE_FEATURE;
  HCI_SCO_OFFSET_REJECTED; HCI_SCO_INTERVAL_REJECTED; HCI_AIR_MODE_REJECTED;
  HCI_INVALID_LMP_PARAMETERS; HCI_UNSPECIFIED_ERROR;
  HCI_UNSUPPORTED_LMP_PARAMETER_VALUE; HCI_ROLE_CHANGE_NOT_ALLOWED;
  HCI_LMP_RESPONSE_TIMEOUT; HCI_LMP_ERROR_TRANSACTION_COLLISION;
  HCI_LMP_PDU_NOT_ALLOWED; HCI_ENCRYPTION_MODE_NOT_ACCEPTED;
  HCI_UNIT_LINK_KEY_USED; HCI_QOS_NOT_SUPPORTED; HCI_INSTANT_PASSED;
  HCI_PAIRING_NOT_SUPPORTED; HCI_TRANSACTION_COLLISION;
  HCI_QOS_UNACCEPTABLE_PARAMETER; HCI_QOS_REJECTED;
  HCI_CLASSIFICATION_NOT_SUPPORTED; HCI_INSUFFICIENT_SECURITY;
  HCI_PARAMETER_OUT_OF_RANGE; HCI_ROLE_SWITCH_PENDING; HCI_SLOT_VIOLATION;
  HCI_ROLE_SWITCH_FAILED ].

(** The eight local codes are distinct, carry the D-Bus range bit and not
    the system range bit (so none is zero). *)
Definition dbus_error_codes_ok `{dbus_h} : Prop :=
  NoDup dbus_error_codes ∧
  Forall (λ c, Z.land c BLUEZ_ESYSTEM_OFFSET = 0 ∧
               Z.land c BLUEZ_EDBUS_OFFSET ≠ 0) dbus_error_codes.

(** The status codes of the table are distinct and none is zero (zero is
    the status of success, and ends the table). *)
Definition hci_error_codes_ok `{hci_h} : Prop :=
  NoDup (hci_error_code <$> hci_error_macros) ∧
  Forall (λ m, hci_error_code m ≠ 0) hci_error_macros.

(** The system range bit lies within 32 bits. *)
Definition system_offset_ok `{dbus_h} : Prop :=
  0 < BLUEZ_ESYSTEM_OFFSET < 4294967296.

(** The scan enable values are bytes, and the four case labels of the
    switch over them are distinct. *)
Definition scan_enable_values_ok `{hci_h} : Prop :=
  (0 ≤ SCAN_DISABLED < 256 ∧ 0 ≤ SCAN_INQUIRY < 256 ∧ 0 ≤ SCAN_PAGE < 256) ∧
  NoDup [SCAN_DISABLED; SCAN_PAGE; Z.lor SCAN_PAGE SCAN_INQUIRY;
         SCAN_INQUIRY].

(** The three modes are bytes, distinct as the case labels of the switch
    over them. *)
Definition mode_values_ok `{dbus_h} : Prop :=
  (0 ≤ MODE_OFF < 256 ∧ 0 ≤ MODE_CONNECTABLE < 256 ∧
   0 ≤ MODE_DISCOVERABLE < 256) ∧
  NoDup [MODE_OFF; MODE_CONNECTABLE; MODE_DISCOVERABLE].

(** The entries of an error table, without the terminator that ends it. *)
Definition error_array_body (array : list bluez_error_t)
    : list bluez_error_t :=
  take (length array - 1) array.

(** The table searched for [ecode]: chosen by the range bits, for a code
    outside the system range. *)
Definition error_array_of `{dbus_h} `{hci_h} (ecode : Z)
    : list bluez_error_t :=
  if decide (Z.land ecode BLUEZ_EDBUS_OFFSET ≠ 0) then dbus_error_array
  else hci_error_array.

(** An entry of the searched table gives [text] for [ecode]. *)
Definition error_text `{dbus_h} `{hci_h} (ecode : Z) (text : string) : Prop :=
  {| code := ecode; str := Some text |} ∈ error_array_of ecode.


(** The table entry has the method name of the call. *)
Definition name_matches (msg : DBusMessage) (h : service_data) : Prop :=
  name h = dbus_message_get_member msg.

(** The table entry matches the name and the argument signature. *)
Definition signature_matches (msg : DBusMessage) (h : service_data) : Prop :=
  name h = dbus_message_get_member msg ∧
  signature h = dbus_message_get_signature msg.

Global Instance name_matches_dec msg h : Decision (name_matches msg h).
Proof. unfold name_matches. apply _. Defined.

Global Instance signature_matches_dec msg h :
  Decision (signature_matches msg h).
Proof. unfold signature_matches. apply _. Defined.

(** What a router loop leaves in the router variables when no entry matches
    both the name and the signature: the wrong-signature error if some
    entry has the name, the variables as they were otherwise. *)
Definition after_mismatches `{dbus_h} (handlers : list service_data)
    (msg : DBusMessage) (v : router_vars) : router_vars :=
  if decide (Exists (name_matches msg) handlers) then
    {| r_reply := r_reply v; r_error := BLUEZ_EDBUS_WRONG_SIGNATURE;
       r_ret := DBUS_HANDLER_RESULT_HANDLED |}
  else v.

Global Instance dbus_error_codes_ok_dec `{dbus_h} :
  Decision dbus_error_codes_ok.
Proof. unfold dbus_error_codes_ok. apply _. Defined.

Global Instance hci_error_codes_ok_dec `{hci_h} : Decision hci_error_codes_ok.
Proof. unfold hci_error_codes_ok. apply _. Defined.

Global Instance scan_enable_values_ok_dec `{hci_h} :
  Decision scan_enable_values_ok.
Proof. unfold scan_enable_values_ok. apply _. Defined.

Global Instance mode_values_ok_dec `{dbus_h} : Decision mode_values_ok.
Proof. unfold mode_values_ok. apply _. Defined.

Global Instance system_offset_ok_dec `{dbus_h} : Decision system_offset_ok.
Proof. unfold system_offset_ok. apply _. Defined.

(** The reply of GetMode: a method return carrying one byte. *)
Definition mode_reply (msg : DBusMessage) (scan_mode : Z) : DBusMessage :=
  dbus_message_append_args (dbus_message_new_method_return msg)
    [DBUS_TYPE_BYTE scan_mode].

(** The write-scan-enable request SetMode sends on descriptor [dd]. *)
Definition write_scan_enable_call (dd hci_mode : Z) : effect :=
  hci_send_req_call dd OGF_HOST_CTL OCF_WRITE_SCAN_ENABLE
    (write_scan_enable_cp hci_mode) 100.







(** The device path of controller [id] can be registered: the user data
    can be allocated and the bus accepts the path. *)
Definition path_registers `{dbus_h} (w : World) (id : Z) : bool :=
  w_malloc w && w_dbus_connection_register_object_path w (device_path id).


(** The scan enable value [hcid_dbus_register_device] records for
    controller [id]. *)
Definition read_scan_enable `{hci_h} (w : World) (id : Z) : Z :=
  let dd := w_hci_open_dev w id in
  let rp := w_hci_send_req w dd OGF_HOST_CTL OCF_READ_SCAN_ENABLE no_cp in
  if decide (dd < 0) then Z.lor SCAN_PAGE SCAN_INQUIRY
  else if decide (rq_ret rp < 0) then Z.lor SCAN_PAGE SCAN_INQUIRY
  else if decide (uint8 (rp_status rp) ≠ 0) then Z.lor SCAN_PAGE SCAN_INQUIRY
  else uint8 (rp_enable rp).

(** The object tree after [pdata->path_data = v] on [path]. *)
Definition with_path_data (path : string) (v : Z)
    (t : gmap string object_path) : gmap string object_path :=
  match t !! path with
  | None => t
  | Some op =>
      <[path := {| op_vtable := op_vtable op; op_fallback := op_fallback op;
                   op_data := {| dev_id := dev_id (op_data op);
                                 path_id := path_id (op_data op);
                                 path_data := v |} |}]> t
  end.















Global Instance bluez_error_t_eq_dec : EqDecision bluez_error_t.
Proof. solve_decision. Defined.

Global Instance error_text_dec `{dbus_h} `{hci_h} ecode text :
  Decision (error_text ecode text).
Proof. unfold error_text. apply _. Defined.

(** ** Concrete inputs *)

(** The user data of the device path of controller 0 with cached mode
    [path_data], under the concrete header. *)
Definition hci0_data (path_data : Z) : hci_dbus_data :=
  {| dev_id := 0; path_id := 16385; path_data := path_data |}.

(** The state after controller 0 has been registered in [quiet_world]: its
    device path is bound, its cached mode is 0 (scan disabled) and it is
    the default controller. *)
Definition hci0_registered : hcid_state :=
  (@hcid_dbus_register_device bluez_dbus_h bluez_hci_h quiet_world 0
     initial_state).2.

Definition set_mode_call (scan_mode : Z) : DBusMessage :=
  method_call "/org/bluez/Device/hci0" "org.bluez.Device" "SetMode"
    [DBUS_TYPE_BYTE scan_mode].

Definition get_mode_call : DBusMessage :=
  method_call "/org/bluez/Device/hci0" "org.bluez.Device" "GetMode" [].



Definition default_device_call : DBusMessage :=
  method_call "/org/bluez/Manager" "org.bluez.Manager" "DefaultDevice" [].


Definition incoming_link : hci_conn_info :=
  {| ci_bdaddr := [85; 68; 51; 34; 17; 0]; ci_out := 0 |}.


(** * Further functions of hcid/dbus.c *)

(** The names of the device signals sent on controller events ([DEV_SIG_...]
    macros of dbus.h). *)
Class dbus_signals_h := {
  DEV_SIG_BONDING_CREATED : string;
  DEV_SIG_DISCOVER_START : string;
  DEV_SIG_DISCOVER_COMPLETE : string;
  DEV_SIG_DISCOVER_RESULT : string;
  DEV_SIG_REMOTE_NAME_FAILED : string;
}.

Section hcid_dbus_events.

Context {dbus_header : dbus_h} {hci_header : hci_h}
  {signals_header : dbus_signals_h}.
Variable w : World.

(** ** HCI events turned into signals

    Each function resolves the local address to a controller with
    [hci_devid], allocates a signal on the device path of that controller
    and sends it. *)
Definition hcid_dbus_bonding_created_complete (local peer : bdaddr_t)
    (status : Z)
    : M unit :=
  let local_addr := w_batostr w (baswap local) in
  let peer_addr := w_batostr w (baswap peer) in
  let id := w_hci_devid w local_addr in
  if decide (id < 0) then ret tt
  else
    let path := device_path id in
    if negb (w_dbus_message_new w) then ret tt
    else
      let message :=
        dbus_message_append_args
          (dbus_message_new_signal path DEVICE_INTERFACE
             DEV_SIG_BONDING_CREATED)
          [DBUS_TYPE_STRING peer_addr; DBUS_TYPE_BYTE (uint8 status)] in
      let* sent := dbus_connection_send w message in
      ret tt.

Definition hcid_dbus_discover_start (local : bdaddr_t)
    : M unit :=
  let local_addr := w_batostr w (baswap local) in
  let id := w_hci_devid w local_addr in
  if decide (id < 0) then ret tt
  else
    let path := device_path id in
    if negb (w_dbus_message_new w) then ret tt
    else
      let message :=
        dbus_message_new_signal path DEVICE_INTERFACE
          DEV_SIG_DISCOVER_START in
      let* sent := dbus_connection_send w message in
      ret tt.

Definition hcid_dbus_discover_complete (local : bdaddr_t)
    : M unit :=
  let local_addr := w_batostr w (baswap local) in
  let id := w_hci_devid w local_addr in
  if decide (id < 0) then ret tt
  else
    let path := device_path id in
    if negb (w_dbus_message_new w) then ret tt
    else
      let message :=
        dbus_message_new_signal path DEVICE_INTERFACE
          DEV_SIG_DISCOVER_COMPLETE in
      let* sent := dbus_connection_send w message in
      ret tt.

Definition hcid_dbus_discover_result (local peer : bdaddr_t)
    (class rssi : Z)
    : M unit :=
  let local_addr := w_batostr w (baswap local) in
  let tmp_class := uint32 class in
  let tmp_rssi := rssi in
  let peer_addr := w_batostr w (baswap peer) in
  let id := w_hci_devid w local_addr in
  if decide (id < 0) then ret tt
  else
    let path := device_path id in
    if negb (w_dbus_message_new w) then ret tt
    else
      let message :=
        dbus_message_append_args
          (dbus_message_new_signal path DEVICE_INTERFACE
             DEV_SIG_DISCOVER_RESULT)
          [DBUS_TYPE_STRING peer_addr; DBUS_TYPE_UINT32 tmp_class;
           DBUS_TYPE_INT32 tmp_rssi] in
      let* sent := dbus_connection_send w message in
      ret tt.

(** The signal name here is [DEV_REMOTE_NAME], the name of the method. *)
Definition hcid_dbus_remote_name (local peer : bdaddr_t)
    (name : string)
    : M unit :=
  let local_addr := w_batostr w (baswap local) in
  let peer_addr := w_batostr w (baswap peer) in
  let id := w_hci_devid w local_addr in
  if decide (id < 0) then ret tt
  else
    let path := device_path id in
    if negb (w_dbus_message_new w) then ret tt
    else
      let message :=
        dbus_message_append_args
          (dbus_message_new_signal path DEVICE_INTERFACE
             (dev_method_name DEV_REMOTE_NAME))
          [DBUS_TYPE_STRING peer_addr; DBUS_TYPE_STRING name] in
      let* sent := dbus_connection_send w message in
      ret tt.

Definition hcid_dbus_remote_name_failed (local peer : bdaddr_t)
    (status : Z)
    : M unit :=
  let local_addr := w_batostr w (baswap local) in
  let peer_addr := w_batostr w (baswap peer) in
  let id := w_hci_devid w local_addr in
  if decide (id < 0) then ret tt
  else
    let path := device_path id in
    if negb (w_dbus_message_new w) then ret tt
    else
      let message :=
        dbus_message_append_args
          (dbus_message_new_signal path DEVICE_INTERFACE
             DEV_SIG_REMOTE_NAME_FAILED)
          [DBUS_TYPE_STRING peer_addr; DBUS_TYPE_BYTE (uint8 status)] in
      let* sent := dbus_connection_send w message in
      ret tt.

Definition hcid_dbus_conn_complete (local peer : bdaddr_t) : M unit :=
  ret tt.

Definition hcid_dbus_disconn_complete (local peer : bdaddr_t) (reason : Z)
    : M unit :=
  ret tt.

(** ** Leaving and rejoining the bus *)

(** [children] is what [dbus_connection_list_registered(connection,
    DEVICE_PATH, &children)] answers: [None] when it returns FALSE, the
    names of the children of the device root otherwise. *)
Fixpoint unregister_children (children : list string) : M unit :=
  match children with
  | [] => ret tt
  | child :: children' =>
      let dev_path :=
        snprintf MAX_PATH_LENGTH (DEVICE_PATH +:+ "/" +:+ child) in
      let* unregistered := unregister_dbus_path w dev_path in
      unregister_children children'
  end.

Definition hcid_dbus_exit (children : option (list string)) : M unit :=
  let* s := get_state in
  if negb (connection s) then ret tt
  else
    (* Unregister all paths in Device path hierarchy *)
    match children with
    | None => ret tt
    | Some children => unregister_children children
    end ;;;
    let* unregistered := unregister_dbus_path w DEVICE_PATH in
    let* unregistered := unregister_dbus_path w MANAGER_PATH in
    (* dbus_connection_close(connection): [connection] keeps its value *)
    ret tt.

(** The handler of the reconnection timer.  After [hcid_dbus_init] has
    succeeded it calls [sigaction] and [setitimer] on the interval timer of
    the process, which is not part of the state, and registers the
    controllers the kernel lists. *)
Definition reconnect_timer_handler : M unit :=
  let* connected := hcid_dbus_init w in
  if negb connected then ret tt
  else
    (* register the device based paths *)
    (* Create and bind HCI socket *)
    let* sk := socket w in
    if decide (sk < 0) then ret tt
    else
      (if negb (w_malloc w) then ret tt
       else
         match w_HCIGETDEVLIST w with
         | None => ret tt
         | Some dl =>
             (* reset the default device *)
             set_default_dev (-1) ;;;
             register_devices w (dr_dev_id <$> dl)
         end) ;;;
      close sk.

End hcid_dbus_events.

(** ** Vocabulary of the further statements *)

Definition is_descriptor_call (e : effect) : bool :=
  match e with
  | hci_open_dev_call _ | socket_call | close_call _
  | hci_close_dev_call _ => true
  | _ => false
  end.

(** The calls of a trace that open or close a descriptor. *)
Definition descriptor_calls (evs : list effect) : list effect :=
  List.filter is_descriptor_call evs.

(** The calls [evs] ask for at most one descriptor, by opening a
    controller or the HCI socket; when that fails nothing is closed, when
    it succeeds the descriptor it returned is closed once, after it. *)
Definition descriptors_balanced (w : World) (evs : list effect) : Prop :=
  match descriptor_calls evs with
  | [] => True
  | [hci_open_dev_call id] => w_hci_open_dev w id < 0
  | [socket_call] => w_socket w < 0
  | [hci_open_dev_call id; close_call dd]
  | [hci_open_dev_call id; hci_close_dev_call dd] =>
      0 ≤ dd ∧ dd = w_hci_open_dev w id
  | [socket_call; close_call sk] => 0 ≤ sk ∧ sk = w_socket w
  | _ => False
  end.

(** A handler that leaves the connection, the default controller, the
    object tree and the pending calls as they are, and whose calls keep the
    descriptors balanced. *)
Definition keeps_state (w : World) (f : service_handler_func_t) : Prop :=
  ∀ msg data s,
    ∃ evs, (f msg data s).2 = logged s evs ∧ descriptors_balanced w evs.

(** The signal [name] of the manager about the path of controller [id]:
    [DeviceAdded] and [DeviceRemoved] carry the device path. *)
Definition manager_signal `{dbus_h} (name : string) (id : Z) : DBusMessage :=
  dbus_message_append_args
    (dbus_message_new_signal MANAGER_PATH MANAGER_INTERFACE name)
    [DBUS_TYPE_STRING (device_path id)].

(** The calls by which [hcid_dbus_register_device] reads the scan enable
    value of controller [id]. *)
Definition read_scan_enable_calls (w : World) (id : Z) : list effect :=
  let dd := w_hci_open_dev w id in
  [hci_open_dev_call id] ++
  (if decide (dd < 0) then []
   else [hci_send_req_call dd OGF_HOST_CTL OCF_READ_SCAN_ENABLE no_cp 500]).

(** The calls of one [hcid_dbus_register_device] that finds user data
    bound to the device path. *)
Definition register_device_calls `{dbus_h} (w : World) (id : Z)
    : list effect :=
  let dd := w_hci_open_dev w id in
  [hci_open_dev_call id] ++
  (if decide (dd < 0) then []
   else [hci_send_req_call dd OGF_HOST_CTL OCF_READ_SCAN_ENABLE no_cp 500]) ++
  (if w_dbus_message_new w then
     [dbus_connection_send_call (manager_signal BLUEZ_MGR_DEV_ADDED id)]
   else []) ++
  (if decide (dd < 0) then [] else [close_call dd]).

(** The entry [hcid_dbus_register_device] binds to the path of controller
    [id] in environment [w]. *)
Definition device_entry `{dbus_h} `{hci_h} (w : World) (id : Z)
    : object_path :=
  {| op_vtable := obj_dev_vtable; op_fallback := false;
     op_data := {| dev_id := id; path_id := DEVICE_PATH_ID;
                   path_data := read_scan_enable w id |} |}.

(** The device path of controller [id] is not cut by the buffer of
    [MAX_PATH_LENGTH] bytes. *)
Definition path_fits `{dbus_h} (id : Z) : Prop :=
  (String.length (DEVICE_PATH +:+ "/hci" +:+ pretty id) < MAX_PATH_LENGTH)%nat.

Global Instance path_fits_dec `{dbus_h} id : Decision (path_fits id).
Proof. unfold path_fits. apply _. Defined.

(** The two entries [hcid_dbus_init] registers. *)
Definition device_root_entry `{dbus_h} (w : World) : object_path :=
  {| op_vtable := obj_dev_vtable; op_fallback := true;
     op_data := {| dev_id := INVALID_DEV_ID; path_id := DEVICE_ROOT_ID;
                   path_data := w_indeterminate w |} |}.

Definition manager_entry `{dbus_h} (w : World) : object_path :=
  {| op_vtable := obj_mgr_vtable; op_fallback := false;
     op_data := {| dev_id := INVALID_DEV_ID; path_id := MANAGER_ROOT_ID;
                   path_data := w_indeterminate w |} |}.

(** The paths [hcid_dbus_exit] asks the bus to unregister. *)
Definition child_path `{dbus_h} (child : string) : string :=
  snprintf MAX_PATH_LENGTH (DEVICE_PATH +:+ "/" +:+ child).

Definition exit_paths `{dbus_h} (children : option (list string))
    : list string :=
  (child_path <$> default [] children) ++ [DEVICE_PATH; MANAGER_PATH].

(** [s1] is [s] after the bus has been asked to unregister each of
    [paths], as far as path [p] can tell: only the object tree and the
    trace change; the new calls are [free]s of user data bound to those
    paths; [p] is unbound if it is one of the paths and the bus agrees;
    its entry is untouched if it is none of them; and if it is one of
    them, was bound and the bus refuses, it is still bound and its user
    data have been freed. *)
Definition unregisters (w : World) (paths : list string) (p : string)
    (s s1 : hcid_state) : Prop :=
  connection s1 = connection s ∧ default_dev s1 = default_dev s ∧
  pending s1 = pending s ∧
  ∃ evs,
    trace s1 = trace s ++ evs ∧
    Forall (λ e, ∃ q, e = free_call q ∧ q ∈ paths) evs ∧
    (p ∈ paths → w_dbus_connection_unregister_object_path w p = true →
     object_tree s1 !! p = None) ∧
    (p ∉ paths → object_tree s1 !! p = object_tree s !! p) ∧
    (p ∈ paths → w_dbus_connection_unregister_object_path w p = false →
     is_Some (object_tree s !! p) →
     is_Some (object_tree s1 !! p) ∧ free_call p ∈ evs).

(** The bus unregisters [path] when asked to by [hcid_dbus_exit]. *)
Definition unregistered_at_exit `{dbus_h} (w : World)
    (children : option (list string)) (path : string) : Prop :=
  path ∈ exit_paths children ∧
  w_dbus_connection_unregister_object_path w path = true.

Global Instance unregistered_at_exit_dec `{dbus_h} w children path :
  Decision (unregistered_at_exit w children path).
Proof. unfold unregistered_at_exit. apply _. Defined.


(** The scan enable value is one of the three the daemon knows. *)
Definition known_scan_enable `{hci_h} (enable : Z) : Prop :=
  enable = SCAN_DISABLED ∨ enable = SCAN_PAGE
  ∨ enable = Z.lor SCAN_PAGE SCAN_INQUIRY.

Global Instance known_scan_enable_dec `{hci_h} enable :
  Decision (known_scan_enable enable).
Proof. unfold known_scan_enable. apply _. Defined.

Definition is_send (e : effect) : bool :=
  match e with
  | dbus_connection_send_call _ => true
  | _ => false
  end.

(** The messages sent on the bus in a trace, in order. *)
Definition sent_messages (evs : list effect) : list DBusMessage :=
  omap (λ e, match e with
             | dbus_connection_send_call m => Some m
             | _ => None
             end) evs.

(** The controller events the daemon turns into device signals, with the
    arguments the functions above take after the local address. *)
Inductive hci_event : Type :=
  | bonding_created_complete (peer : bdaddr_t) (status : Z)
  | discover_start
  | discover_complete
  | discover_result (peer : bdaddr_t) (class rssi : Z)
  | remote_name (peer : bdaddr_t) (name : string)
  | remote_name_failed (peer : bdaddr_t) (status : Z).

(** The function of the file that serves each event. *)
Definition hcid_dbus_event `{dbus_h} `{dbus_signals_h} (w : World)
    (local : bdaddr_t) (ev : hci_event) : M unit :=
  match ev with
  | bonding_created_complete peer status =>
      hcid_dbus_bonding_created_complete w local peer status
  | discover_start => hcid_dbus_discover_start w local
  | discover_complete => hcid_dbus_discover_complete w local
  | discover_result peer class rssi =>
      hcid_dbus_discover_result w local peer class rssi
  | remote_name peer name => hcid_dbus_remote_name w local peer name
  | remote_name_failed peer status =>
      hcid_dbus_remote_name_failed w local peer status
  end.

(** The peer an event is about, for the events that have one. *)
Definition event_peer (ev : hci_event) : option bdaddr_t :=
  match ev with
  | bonding_created_complete peer _ | discover_result peer _ _
  | remote_name peer _ | remote_name_failed peer _ => Some peer
  | discover_start | discover_complete => None
  end.

(** A signal of the device interface on the path of controller [id]. *)
Definition device_signal_of `{dbus_h} (id : Z) (m : DBusMessage) : Prop :=
  msg_type m = DBUS_MESSAGE_TYPE_SIGNAL ∧
  msg_path m = device_path id ∧ msg_interface m = DEVICE_INTERFACE.


(** The first member of a struct argument. *)
Definition struct_head (a : dbus_arg) : option dbus_arg :=
  match a with
  | DBUS_TYPE_STRUCT (x :: _) => Some x
  | _ => None
  end.

(** The paths of the controllers of the kernel list [dl] whose
    [HCIGETDEVINFO] succeeds, in the order of the list: the device root
    followed by the name the kernel gives the controller. *)
Definition listed_paths `{dbus_h} (w : World) (dl : list hci_dev_req)
    : list string :=
  (λ di, child_path (di_name di)) <$>
  omap (λ dr, w_HCIGETDEVINFO w (dr_dev_id dr)) dl.

(** ** Concrete inputs of the further statements *)

Definition bluez_dbus_signals_h : dbus_signals_h := {|
  DEV_SIG_BONDING_CREATED := "BondingCreated";
  DEV_SIG_DISCOVER_START := "DiscoverStart";
  DEV_SIG_DISCOVER_COMPLETE := "DiscoverComplete";
  DEV_SIG_DISCOVER_RESULT := "DiscoverResult";
  DEV_SIG_REMOTE_NAME_FAILED := "RemoteNameFailed";
|}.

(** As [quiet_world], but every request to a controller is answered [rp]. *)
Definition response_world (rp : hci_response) : World := {|
  w_hci_open_dev := w_hci_open_dev quiet_world;
  w_hci_send_req := λ _ _ _ _, rp;
  w_hci_devinfo := w_hci_devinfo quiet_world;
  w_hci_devid := w_hci_devid quiet_world;
  w_hci_get_route := w_hci_get_route quiet_world;
  w_find_conn := w_find_conn quiet_world;
  w_HCIGETCONNINFO := w_HCIGETCONNINFO quiet_world;
  w_socket := w_socket quiet_world;
  w_HCIGETDEVLIST := w_HCIGETDEVLIST quiet_world;
  w_HCIGETDEVINFO := w_HCIGETDEVINFO quiet_world;
  w_hci_dtypetostr := w_hci_dtypetostr quiet_world;
  w_ba2str := w_ba2str quiet_world;
  w_batostr := w_batostr quiet_world;
  w_str2ba := w_str2ba quiet_world;
  w_get_device_address := w_get_device_address quiet_world;
  w_get_device_version := w_get_device_version quiet_world;
  w_get_device_revision := w_get_device_revision quiet_world;
  w_get_device_manufacturer := w_get_device_manufacturer quiet_world;
  w_get_device_company := w_get_device_company quiet_world;
  w_STORAGEDIR := w_STORAGEDIR quiet_world;
  w_textfile_get := w_textfile_get quiet_world;
  w_errno := w_errno quiet_world;
  w_strerror := w_strerror quiet_world;
  w_malloc := w_malloc quiet_world;
  w_indeterminate := w_indeterminate quiet_world;
  w_dbus_bus_get := w_dbus_bus_get quiet_world;
  w_dbus_bus_request_name := w_dbus_bus_request_name quiet_world;
  w_dbus_connection_add_filter := w_dbus_connection_add_filter quiet_world;
  w_dbus_message_new := w_dbus_message_new quiet_world;
  w_dbus_connection_register_object_path := w_dbus_connection_register_object_path quiet_world;
  w_dbus_connection_register_fallback := w_dbus_connection_register_fallback quiet_world;
  w_dbus_connection_unregister_object_path := w_dbus_connection_unregister_object_path quiet_world;
  w_dbus_connection_send := w_dbus_connection_send quiet_world;
  w_dbus_connection_send_with_reply := w_dbus_connection_send_with_reply quiet_world;
|}.

(** As [quiet_world], but the kernel lists the controllers [dl] and
    answers [HCIGETDEVINFO] with [info]. *)
Definition devices_world (dl : list hci_dev_req)
    (info : Z → option hci_dev_info) : World := {|
  w_hci_open_dev := w_hci_open_dev quiet_world;
  w_hci_send_req := w_hci_send_req quiet_world;
  w_hci_devinfo := w_hci_devinfo quiet_world;
  w_hci_devid := w_hci_devid quiet_world;
  w_hci_get_route := w_hci_get_route quiet_world;
  w_find_conn := w_find_conn quiet_world;
  w_HCIGETCONNINFO := w_HCIGETCONNINFO quiet_world;
  w_socket := w_socket quiet_world;
  w_HCIGETDEVLIST := Some dl;
  w_HCIGETDEVINFO := info;
  w_hci_dtypetostr := w_hci_dtypetostr quiet_world;
  w_ba2str := w_ba2str quiet_world;
  w_batostr := w_batostr quiet_world;
  w_str2ba := w_str2ba quiet_world;
  w_get_device_address := w_get_device_address quiet_world;
  w_get_device_version := w_get_device_version quiet_world;
  w_get_device_revision := w_get_device_revision quiet_world;
  w_get_device_manufacturer := w_get_device_manufacturer quiet_world;
  w_get_device_company := w_get_device_company quiet_world;
  w_STORAGEDIR := w_STORAGEDIR quiet_world;
  w_textfile_get := w_textfile_get quiet_world;
  w_errno := w_errno quiet_world;
  w_strerror := w_strerror quiet_world;
  w_malloc := w_malloc quiet_world;
  w_indeterminate := w_indeterminate quiet_world;
  w_dbus_bus_get := w_dbus_bus_get quiet_world;
  w_dbus_bus_request_name := w_dbus_bus_request_name quiet_world;
  w_dbus_connection_add_filter := w_dbus_connection_add_filter quiet_world;
  w_dbus_message_new := w_dbus_message_new quiet_world;
  w_dbus_connection_register_object_path := w_dbus_connection_register_object_path quiet_world;
  w_dbus_connection_register_fallback := w_dbus_connection_register_fallback quiet_world;
  w_dbus_connection_unregister_object_path := w_dbus_connection_unregister_object_path quiet_world;
  w_dbus_connection_send := w_dbus_connection_send quiet_world;
  w_dbus_connection_send_with_reply := w_dbus_connection_send_with_reply quiet_world;
|}.


(** A controller that answers with status 0x7f, which no table names. *)
Definition odd_status_world : World :=
  response_world
    {| rq_ret := 0; rp_status := 127; rp_enable := 0; rp_name := "hcid" |}.


(** The kernel lists controllers 0 and 1 and knows the details of the
    first only. *)
Definition two_devices : list hci_dev_req :=
  [{| dr_dev_id := 0; dr_dev_opt := 5 |};
   {| dr_dev_id := 1; dr_dev_opt := 0 |}].

Definition two_devices_world : World :=
  devices_world two_devices
    (λ id, if decide (id = 0)
           then Some {| di_name := "hci0"; di_bdaddr := [1; 2; 3; 4; 5; 6];
                        di_type := 0 |}
           else None).

Definition cancel_discovery_call : DBusMessage :=
  method_call "/org/bluez/Device/hci0" "org.bluez.Device" "CancelDiscovery"
    [].



Definition list_devices_call : DBusMessage :=
  method_call "/org/bluez/Manager" "org.bluez.Manager" "ListDevices" [].


(** The user data of the manager path. *)
Definition manager_data : hci_dbus_data :=
  {| dev_id := 65535; path_id := 32768; path_data := 0 |}.

(** The address of the local controller in an event. *)
Definition local_address : bdaddr_t := [6; 5; 4; 3; 2; 1].

(** A daemon that lost the bus while controller 7 was its default. *)
Definition stale_default_state : hcid_state :=
  {| connection := false; default_dev := 7; object_tree := ∅;
     pending := []; trace := [] |}.

(** * Properties *)

(** ** Error messages *)

Section error_messages.
Context {dbus_header : dbus_h} {hci_header : hci_h}.
Variable w : World.

Lemma error_array_lookup_absent array ecode :
  (∀ text, {| code := ecode; str := Some text |} ∉ array) →
  error_array_lookup array ecode = None.
Proof.
  induction array as [|e array IH]; intros Habs; simpl; [done|].
  case_decide; [done|].
  case_decide as Hc.
  - destruct e as [c [text|]]; simpl in *; [|done].
    subst c. exfalso. apply (Habs text). left.
  - apply IH. intros text Hin. apply (Habs text). by right.
Qed.

Lemma error_array_lookup_present body rest ecode text :
  NoDup (code <$> body) →
  Forall (λ e, code e ≠ 0) body →
  {| code := ecode; str := Some text |} ∈ body →
  error_array_lookup (body ++ rest)%list ecode = Some text.
Proof.
  induction body as [|e body IH]; intros Hnd Hnz Hin.
  - by apply elem_of_nil in Hin.
  - rewrite fmap_cons in Hnd. apply NoDup_cons in Hnd as [Hnotin Hnd].
    apply Forall_cons in Hnz as [Hne Hnz].
    simpl. case_decide; [done|].
    apply elem_of_cons in Hin as [Heq|Hin].
    + subst e. simpl. by rewrite decide_True.
    + case_decide as Hc.
      * exfalso. apply Hnotin. rewrite Hc.
        by apply (list_elem_of_fmap_2 code) in Hin.
      * by apply IH.
Qed.

Lemma dbus_error_array_body :
  dbus_error_array =
  (error_array_body dbus_error_array ++ [ {| code := 0; str := None |} ])%list
  ∧
  code <$> error_array_body dbus_error_array = dbus_error_codes.
Proof. split; reflexivity. Qed.

Lemma hci_error_array_body :
  hci_error_array =
  (error_array_body hci_error_array ++ [ {| code := 0; str := None |} ])%list
  ∧
  code <$> error_array_body hci_error_array =
  hci_error_code <$> hci_error_macros.
Proof. split; reflexivity. Qed.

Lemma land_nonzero c m : Z.land c m ≠ 0 → c ≠ 0.
Proof. intros H ->. by rewrite Z.land_0_l in H. Qed.

Lemma dbus_error_array_lookup ecode text :
  dbus_error_codes_ok →
  {| code := ecode; str := Some text |} ∈ dbus_error_array →
  error_array_lookup dbus_error_array ecode = Some text.
Proof.
  intros [Hnd Hrange] Hin.
  destruct dbus_error_array_body as [Hsplit Hcodes].
  rewrite Hsplit in Hin |- *.
  apply elem_of_app in Hin as [Hin|Hin];
    [|apply list_elem_of_singleton in Hin; discriminate].
  apply error_array_lookup_present; [by rewrite Hcodes| |exact Hin].
  assert (Forall (λ c, c ≠ 0) (code <$> error_array_body dbus_error_array))
    as Hnz.
  { rewrite Hcodes. eapply Forall_impl; [exact Hrange|].
    intros c [_ Hc]. by eapply land_nonzero. }
  rewrite Forall_fmap in Hnz. exact Hnz.
Qed.


End error_messages.

(** ** The trace *)

Lemma logged_nil s : logged s [] = s.
Proof. destruct s. unfold logged. simpl. by rewrite app_nil_r. Qed.


(** Closes a goal whose two sides differ in how the trace is bracketed. *)
Ltac trace_eq :=
  unfold logged; simpl; rewrite <- ?app_assoc; simpl; reflexivity.

Section failure_messages.
Context {dbus_header : dbus_h} {hci_header : hci_h}.
Variable w : World.

Lemma dbus_error_code_range ecode :
  dbus_error_codes_ok → ecode ∈ dbus_error_codes →
  Z.land ecode BLUEZ_ESYSTEM_OFFSET = 0 ∧
  Z.land ecode BLUEZ_EDBUS_OFFSET ≠ 0.
Proof.
  intros [_ Hrange] Hin. rewrite Forall_forall in Hrange. by apply Hrange.
Qed.

Lemma dbus_error_array_codes ecode text :
  {| code := ecode; str := Some text |} ∈ dbus_error_array →
  ecode ∈ dbus_error_codes.
Proof.
  intros Hin. destruct dbus_error_array_body as [Hsplit Hcodes].
  rewrite Hsplit in Hin.
  apply elem_of_app in Hin as [Hin|Hin];
    [|apply list_elem_of_singleton in Hin; discriminate].
  rewrite <- Hcodes.
  by apply (list_elem_of_fmap_2 code) in Hin.
Qed.

(** The failure message of a local (D-Bus range) code. *)
Lemma bluez_new_failure_msg_dbus msg ecode text :
  dbus_error_codes_ok →
  {| code := ecode; str := Some text |} ∈ dbus_error_array →
  bluez_new_failure_msg w msg ecode = Some (failure_msg text ecode).
Proof.
  intros Hok Hin.
  destruct (dbus_error_code_range ecode Hok) as [Hsys Hdbus];
    [by eapply dbus_error_array_codes|].
  unfold bluez_new_failure_msg, bluez_dbus_error_to_str.
  rewrite decide_False by (intros Hn; by apply Hn).
  rewrite decide_True by done.
  by rewrite (dbus_error_array_lookup ecode text Hok Hin).
Qed.



(** Whatever the header says, the error name cannot be the text of the
    table for every code: the name is the same for all codes and the texts
    differ. *)
Lemma error_name_is_not_the_text msg :
  dbus_error_codes_ok →
  ¬ (∀ ecode text, error_text ecode text →
       ∃ reply, bluez_new_failure_msg w msg ecode = Some reply ∧
                msg_error_name reply = text).
Proof.
  intros Hok Hall.
  assert (∀ ecode text,
            {| code := ecode; str := Some text |} ∈ dbus_error_array →
            ERROR_INTERFACE = text) as Hname.
  { intros ecode text Hin.
    destruct (dbus_error_code_range ecode Hok) as [_ Hdbus];
      [by eapply dbus_error_array_codes|].
    destruct (Hall ecode text) as (reply & Hreply & Htext).
    - unfold error_text, error_array_of. by rewrite decide_True.
    - rewrite (bluez_new_failure_msg_dbus msg ecode text Hok Hin) in Hreply.
      injection Hreply as <-. exact Htext. }
  assert (ERROR_INTERFACE = "Method not found") as H1
    by (apply (Hname BLUEZ_EDBUS_UNKNOWN_METHOD); left).
  assert (ERROR_INTERFACE = "Wrong method signature") as H2
    by (apply (Hname BLUEZ_EDBUS_WRONG_SIGNATURE); right; left).
  rewrite H1 in H2. discriminate.
Qed.

End failure_messages.

(** ** Request routers *)

Section routers.
Context {dbus_header : dbus_h} {hci_header : hci_h}.
Variable w : World.



Lemma after_mismatches_cons_skip h handlers msg v :
  ¬ name_matches msg h →
  after_mismatches (h :: handlers) msg v = after_mismatches handlers msg v.
Proof.
  intros Hn. unfold after_mismatches.
  destruct (decide (Exists (name_matches msg) handlers)) as [He|He].
  - rewrite decide_True; [done|]. by apply Exists_cons_tl.
  - rewrite decide_False; [done|].
    intros Hc. apply Exists_cons in Hc as [?|?]; done.
Qed.

Lemma after_mismatches_cons_name h handlers msg v :
  name_matches msg h →
  after_mismatches (h :: handlers) msg v =
  after_mismatches handlers msg
    {| r_reply := r_reply v; r_error := BLUEZ_EDBUS_WRONG_SIGNATURE;
       r_ret := DBUS_HANDLER_RESULT_HANDLED |}.
Proof.
  intros Hn. unfold after_mismatches.
  rewrite decide_True by (by apply Exists_cons_hd).
  by case_decide.
Qed.


Lemma msg_func_manager_loop_mismatches handlers msg data v s :
  Forall (λ h, ¬ signature_matches msg h) handlers →
  msg_func_manager_loop handlers msg data v s =
  (after_mismatches handlers msg v, s).
Proof.
  revert v. induction handlers as [|h handlers IH]; intros v Hno.
  - reflexivity.
  - apply Forall_cons in Hno as [Hh Hno]. simpl.
    case_decide as Hname.
    + rewrite IH by done. by rewrite after_mismatches_cons_skip.
    + rewrite decide_True by (intros Hsig; by apply Hh).
      rewrite IH by done. by rewrite after_mismatches_cons_name.
Qed.







End routers.

(** ** Scan modes *)

Section modes.
Context {dbus_header : dbus_h} {hci_header : hci_h}.
Variable w : World.







(** C10.  GetMode is a function of the cached mode byte alone: there is a
    function [f] of that byte such that every call returns [f] of it and
    leaves the whole state as it was -- the trace (no controller is opened,
    no request is sent), the object tree with its cached modes, and the
    default controller; the same holds when the call reaches the handler
    through the entry bound to a path. *)
Theorem get_mode_reads_cache_only :
  ∃ f : Z → option DBusMessage,
    (∀ msg data s,
       handle_dev_get_mode_req msg data s = (f (path_data data), s)) ∧
    (∀ msg path s,
       (on_object_path path (handle_dev_get_mode_req msg) s).2 = s ∧
       trace (on_object_path path (handle_dev_get_mode_req msg) s).2
         = trace s ∧
       object_tree (on_object_path path (handle_dev_get_mode_req msg) s).2
         = object_tree s ∧
       default_dev (on_object_path path (handle_dev_get_mode_req msg) s).2
         = default_dev s).
Proof.
  exists (λ cached,
    Some {| msg_type := DBUS_MESSAGE_TYPE_METHOD_RETURN;
            msg_destination := ""; msg_path := ""; msg_interface := "";
            msg_member := ""; msg_error_name := "";
            msg_args :=
              [DBUS_TYPE_BYTE
                 (uint8 (scan_mode_of_hci_mode (uint8 cached)))] |}).
  split; [reflexivity|].
  intros msg path s.
  assert ((on_object_path path (handle_dev_get_mode_req msg) s).2 = s) as ->.
  { unfold on_object_path, dbus_connection_get_object_path_data, bind,
      get_state, ret. simpl.
    by destruct (object_tree s !! path). }
  done.
Qed.

End modes.

Section set_mode.
Context {dbus_header : dbus_h} {hci_header : hci_h}.
Variable w : World.





End set_mode.

(** ** Registering and unregistering controllers *)

Section registry.
Context {dbus_header : dbus_h} {hci_header : hci_h}.
Variable w : World.

(** [register_dbus_path] in terms of what the environment answers. *)
Lemma register_dbus_path_eq path pid did pvtable fallback s :
  register_dbus_path w path pid did pvtable fallback s =
  if w_malloc w &&
     (if fallback then w_dbus_connection_register_fallback w path
      else w_dbus_connection_register_object_path w path)
  then
    (true,
     {| connection := connection s; default_dev := default_dev s;
        object_tree :=
          <[path := {| op_vtable := pvtable; op_fallback := fallback;
                       op_data := {| dev_id := did; path_id := pid;
                                     path_data := w_indeterminate w |} |}]>
            (object_tree s);
        pending := pending s; trace := trace s |})
  else (false, s).
Proof.
  unfold register_dbus_path.
  destruct (w_malloc w); simpl; [|done].
  by destruct (if fallback then _ else _).
Qed.

Lemma set_path_data_eq path v op s :
  object_tree s !! path = Some op →
  set_path_data path v s =
  (tt,
   {| connection := connection s; default_dev := default_dev s;
      object_tree := with_path_data path v (object_tree s);
      pending := pending s; trace := trace s |}).
Proof.
  intros Hop.
  unfold set_path_data, with_path_data, bind, get_state. simpl.
  by rewrite Hop.
Qed.

Lemma unregister_dbus_path_eq path s :
  unregister_dbus_path w path s =
  (w_dbus_connection_unregister_object_path w path,
   {| connection := connection s; default_dev := default_dev s;
      object_tree :=
        if w_dbus_connection_unregister_object_path w path
        then delete path (object_tree s) else object_tree s;
      pending := pending s;
      trace := trace s ++
               match object_tree s !! path with
               | Some _ => [free_call path]
               | None => []
               end |}).
Proof.
  unfold unregister_dbus_path, dbus_connection_get_object_path_data, bind,
    get_state, set_object_tree, log, ret.
  destruct s as [c d t p tr].
  cbn [fst snd connection default_dev object_tree pending trace].
  destruct (t !! path) as [op|];
    cbn [fmap option_fmap option_map fst snd connection default_dev
         object_tree pending trace];
    destruct (w_dbus_connection_unregister_object_path w path);
    cbn [negb fst snd connection default_dev object_tree pending trace];
    rewrite ?app_nil_r; reflexivity.
Qed.


(** [hcid_dbus_register_device] when user data are bound to the device
    path after the registration: all of the function runs. *)
Lemma hcid_dbus_register_device_bound id op s :
  let r0 :=
    register_dbus_path w (device_path id) DEVICE_PATH_ID id obj_dev_vtable
      false s in
  object_tree r0.2 !! device_path id = Some op →
  hcid_dbus_register_device w id s =
  (r0.1,
   {| connection := connection s;
      default_dev := if r0.1 && bool_decide (default_dev s < 0) then id
                     else default_dev s;
      object_tree :=
        with_path_data (device_path id) (read_scan_enable w id)
          (object_tree r0.2);
      pending := pending s;
      trace := trace s ++ register_device_calls w id |}).
Proof.
  intros r0. subst r0.
  unfold hcid_dbus_register_device, register_device_calls,
    read_scan_enable, manager_signal, bind.
  rewrite register_dbus_path_eq.
  generalize (device_path id). intros path.
  destruct s as [c d t p tr].
  destruct (w_malloc w && w_dbus_connection_register_object_path w path)
    eqn:Hreg;
    cbn [fst snd andb connection default_dev object_tree pending trace];
    intros Hop;
    unfold dbus_connection_get_object_path_data, hci_open_dev, hci_send_req,
      dbus_connection_send, bind, get_state, when, set_default_dev, close,
      log, ret;
    cbn [fst snd andb connection default_dev object_tree pending trace];
    repeat case_decide;
    cbn [fst snd andb connection default_dev object_tree pending trace];
    rewrite Hop;
    cbn [fmap option_fmap option_map];
    rewrite (set_path_data_eq _ _ op) by exact Hop;
    cbn [fst snd andb connection default_dev object_tree pending trace];
    destruct (w_dbus_message_new w);
    cbn [negb fst snd andb connection default_dev object_tree pending trace];
    repeat case_bool_decide;
    cbn [negb fst snd andb connection default_dev object_tree pending trace];
    try lia; rewrite <- ?app_assoc; reflexivity.
Qed.

(** [hcid_dbus_register_device] when nothing is bound to the device path
    after the registration (which has then failed): the function ends in
    the write through the null pointer. *)
Lemma hcid_dbus_register_device_unbound id s :
  let r0 :=
    register_dbus_path w (device_path id) DEVICE_PATH_ID id obj_dev_vtable
      false s in
  object_tree r0.2 !! device_path id = None →
  hcid_dbus_register_device w id s =
  (r0.1,
   logged r0.2
     (read_scan_enable_calls w id ++
      [undefined_behaviour null_pointer_write])).
Proof.
  intros r0. subst r0.
  unfold hcid_dbus_register_device, read_scan_enable_calls, bind.
  generalize (device_path id). intros path.
  destruct (register_dbus_path w path DEVICE_PATH_ID id obj_dev_vtable
              false s) as [ret_ s0].
  cbn [fst snd]. destruct s0 as [c d t p tr].
  cbn [object_tree]. intros Hnone.
  unfold dbus_connection_get_object_path_data, hci_open_dev, hci_send_req,
    bind, get_state, log, ret.
  cbn [fst snd andb connection default_dev object_tree pending trace].
  repeat case_decide;
    cbn [fst snd andb connection default_dev object_tree pending trace];
    rewrite Hnone; cbn [fmap option_fmap option_map];
    unfold logged;
    cbn [fst snd connection default_dev object_tree pending trace];
    rewrite <- ?app_assoc; reflexivity.
Qed.

(** A failed registration leaves the state as it was. *)
Lemma register_dbus_path_false path pid did pvtable fallback s :
  (register_dbus_path w path pid did pvtable fallback s).1 = false →
  (register_dbus_path w path pid did pvtable fallback s).2 = s.
Proof.
  rewrite register_dbus_path_eq.
  by destruct (w_malloc w && _).
Qed.

(** After a registration that succeeded the path is bound. *)
Lemma register_dbus_path_true path pid did pvtable fallback s :
  (register_dbus_path w path pid did pvtable fallback s).1 = true →
  object_tree (register_dbus_path w path pid did pvtable fallback s).2
    !! path =
  Some {| op_vtable := pvtable; op_fallback := fallback;
          op_data := {| dev_id := did; path_id := pid;
                        path_data := w_indeterminate w |} |}.
Proof.
  rewrite register_dbus_path_eq.
  destruct (w_malloc w && _); [|done].
  intros _. cbn [snd object_tree]. apply lookup_insert_eq.
Qed.

Lemma hcid_dbus_register_device_result id s :
  let r := hcid_dbus_register_device w id s in
  let registered :=
    (register_dbus_path w (device_path id) DEVICE_PATH_ID id obj_dev_vtable
       false s).1 in
  r.1 = registered ∧
  default_dev r.2 =
    (if registered && bool_decide (default_dev s < 0) then id
     else default_dev s) ∧
  (registered = true →
   op_data <$> object_tree r.2 !! device_path id =
   Some {| dev_id := id; path_id := DEVICE_PATH_ID;
           path_data := read_scan_enable w id |}).
Proof.
  intros r registered. subst r registered.
  destruct (object_tree
              (register_dbus_path w (device_path id) DEVICE_PATH_ID id
                 obj_dev_vtable false s).2 !! device_path id)
    as [op|] eqn:Hlook.
  - rewrite (hcid_dbus_register_device_bound id op s Hlook).
    cbn [fst snd default_dev object_tree].
    split; [done|]. split; [done|].
    intros Hreg.
    pose proof (register_dbus_path_true _ _ _ _ _ _ Hreg) as Htrue.
    unfold with_path_data. rewrite Htrue.
    by rewrite lookup_insert_eq.
  - rewrite (hcid_dbus_register_device_unbound id s Hlook).
    cbn [fst snd logged default_dev].
    destruct (register_dbus_path w (device_path id) DEVICE_PATH_ID id
                obj_dev_vtable false s).1 eqn:Hreg.
    + by rewrite (register_dbus_path_true _ _ _ _ _ _ Hreg) in Hlook.
    + rewrite (register_dbus_path_false _ _ _ _ _ _ Hreg).
      split; [done|]. split; [done|]. done.
Qed.




Lemma register_devices_default ids s :
  default_dev s < 0 → Forall (λ id, 0 ≤ id) ids →
  default_dev (register_devices w ids s).2 =
  default (default_dev s) (head (List.filter (path_registers w) ids)).
Proof.
  revert s. induction ids as [|id ids IH]; intros s Hnone Hids; [done|].
  apply Forall_cons in Hids as [Hid Hids].
  destruct (hcid_dbus_register_device_result id s) as (_ & Hdef & _).
  rewrite register_dbus_path_eq in Hdef. fold (path_registers w id) in Hdef.
  cbn [register_devices]. unfold bind.
  destruct (hcid_dbus_register_device w id s) as [registered s'].
  cbn [fst snd] in *. cbn [List.filter].
  destruct (path_registers w id); cbn [fst andb head default] in *.
  - rewrite bool_decide_eq_true_2 in Hdef by done.
    clear IH. revert s' Hdef.
    induction ids as [|id' ids IH']; intros s' Hdef; [done|].
    apply Forall_cons in Hids as [_ Hids].
    destruct (hcid_dbus_register_device_result id' s') as (_ & Hdef' & _).
    cbn [register_devices]. unfold bind.
    destruct (hcid_dbus_register_device w id' s') as [registered' s''].
    cbn [fst snd] in *. apply IH'; [done|].
    rewrite Hdef', Hdef.
    rewrite (bool_decide_eq_false_2 (id < 0)) by lia.
    by rewrite andb_false_r.
  - rewrite IH by (rewrite ?Hdef; done). by rewrite Hdef.
Qed.


End registry.

Section scan_enable_event.
Context {dbus_header : dbus_h} {hci_header : hci_h}.
Variable w : World.

(** The cached mode is written by the scan-enable event: when the
    controller is found and opened and the read-back succeeds, the entry
    bound to its device path holds the scan enable byte read back. *)
Lemma setscan_enable_complete_updates_cache local op s :
  let id := w_hci_devid w (w_batostr w (baswap local)) in
  let dd := w_hci_open_dev w id in
  let rp := w_hci_send_req w dd OGF_HOST_CTL OCF_READ_SCAN_ENABLE no_cp in
  0 ≤ id → 0 ≤ dd → 0 ≤ rq_ret rp → uint8 (rp_status rp) = 0 →
  object_tree s !! device_path id = Some op →
  op_data <$>
    object_tree (hcid_dbus_setscan_enable_complete w local s).2
      !! device_path id
  = Some {| dev_id := dev_id (op_data op); path_id := path_id (op_data op);
            path_data := uint8 (rp_enable rp) |}.
Proof.
  intros id dd rp Hid Hdd Hret Hstatus Hop.
  unfold hcid_dbus_setscan_enable_complete.
  fold id. rewrite decide_False by lia.
  generalize dependent (device_path id). intros path Hop.
  destruct s as [c d t p tr]. cbn [object_tree] in Hop.
  unfold dbus_connection_get_object_path_data, hci_open_dev, hci_send_req,
    dbus_connection_send, close, bind, log, get_state, ret.
  cbn [fst snd connection default_dev object_tree pending trace].
  fold dd. rewrite decide_False by lia.
  fold rp. rewrite decide_False by lia.
  rewrite decide_False by (intros Hn; by apply Hn).
  cbn [fst snd connection default_dev object_tree pending trace].
  rewrite Hop. cbn [fmap option_fmap option_map].
  rewrite (set_path_data_eq _ _ op) by exact Hop.
  cbn [fst snd connection default_dev object_tree pending trace].
  assert (op_data <$> with_path_data path (uint8 (rp_enable rp)) t !! path =
          Some {| dev_id := dev_id (op_data op);
                  path_id := path_id (op_data op);
                  path_data := uint8 (rp_enable rp) |}) as Hnew.
  { unfold with_path_data. rewrite Hop. by rewrite lookup_insert_eq. }
  case_decide; [destruct (w_dbus_message_new w)|];
    cbn [negb fst snd connection default_dev object_tree pending trace];
    exact Hnew.
Qed.

End scan_enable_event.

(** ** PIN requests *)

Section pin.
Context {dbus_header : dbus_h} {hci_header : hci_h}.
Variable w : World.






End pin.

(** ** Remote name lookup *)

Section remote_name.
Context {dbus_header : dbus_h} {hci_header : hci_h}.
Variable w : World.





End remote_name.

(** ** The statements at the concrete header *)

Section concrete.
Local Existing Instance bluez_dbus_h.
Local Existing Instance bluez_hci_h.






(** The cached mode of controller 0 after its registration. *)
Lemma hci0_registered_data :
  object_tree hci0_registered !! "/org/bluez/Device/hci0" =
  Some {| op_vtable := obj_dev_vtable; op_fallback := false;
          op_data := hci0_data 0 |} ∧
  default_dev hci0_registered = 0.
Proof. split; vm_compute; reflexivity. Qed.


(** *** Witnesses *)










(** *** Counterexamples to the statements as first written *)





End concrete.

(** * Further properties *)

(** ** Dispatch by the routers *)

Section dispatch.

Context {dbus_header : dbus_h} {hci_header : hci_h}.
Variable w : World.

(** The loop of the device router stops at the first entry matching name
    and signature: the entries before it leave no mark, the entries after
    it are not looked at. *)
Lemma msg_func_device_loop_first_match pre h post msg data v s :
  Forall (λ h', ¬ signature_matches msg h') pre →
  signature_matches msg h →
  msg_func_device_loop (pre ++ h :: post) msg data v s =
  ({| r_reply := (call_handler_func h msg data s).1; r_error := 0;
      r_ret := DBUS_HANDLER_RESULT_HANDLED |},
   (call_handler_func h msg data s).2).
Proof.
  intros Hpre [Hname Hsig]. revert v.
  induction Hpre as [|h' pre Hh' Hpre IH]; intros v; simpl.
  - rewrite decide_False by (intros Hn; by apply Hn).
    rewrite decide_True by exact Hsig.
    unfold bind, ret. by destruct (call_handler_func h msg data s).
  - case_decide as Hn; [apply IH|].
    rewrite decide_False; [apply IH|].
    intros Hs. apply Hh'. by split.
Qed.

(** The loop of the manager router goes on after the matching entry: the
    entries after it are still compared with the call. *)
Lemma msg_func_manager_loop_match pre h post msg data v s :
  Forall (λ h', ¬ signature_matches msg h') pre →
  signature_matches msg h →
  Forall (λ h', ¬ signature_matches msg h') post →
  msg_func_manager_loop (pre ++ h :: post) msg data v s =
  (after_mismatches post msg
     {| r_reply := (call_handler_func h msg data s).1; r_error := 0;
        r_ret := DBUS_HANDLER_RESULT_HANDLED |},
   (call_handler_func h msg data s).2).
Proof.
  intros Hpre [Hname Hsig] Hpost. revert v.
  induction Hpre as [|h' pre Hh' Hpre IH]; intros v; simpl.
  - rewrite decide_False by (intros Hn; by apply Hn).
    rewrite decide_False by (intros Hn; by apply Hn).
    unfold bind.
    destruct (call_handler_func h msg data s) as [reply s'] eqn:Hcall.
    simpl. by apply msg_func_manager_loop_mismatches.
  - case_decide as Hn; [apply IH|].
    rewrite decide_True; [apply IH|].
    intros Hs. apply Hh'. by split.
Qed.

Lemma call_handler_func_eq h msg data s :
  call_handler_func h msg data s =
  handler_func h msg data
    (logged s [handler_func_call (name h) (signature h)]).
Proof. reflexivity. Qed.

(** In a table without two entries of one name, the entries around a
    matching one do not have the name of the call. *)
Lemma unique_name_split handlers h msg :
  NoDup (name <$> handlers) → h ∈ handlers → signature_matches msg h →
  ∃ pre post,
    handlers = pre ++ h :: post ∧
    Forall (λ h', ¬ signature_matches msg h') pre ∧
    Forall (λ h', ¬ name_matches msg h') post.
Proof.
  intros Hnodup Hin [Hname Hsig].
  apply list_elem_of_split in Hin as (pre & post & ->).
  exists pre, post. split; [done|].
  rewrite fmap_app, fmap_cons in Hnodup.
  apply NoDup_app in Hnodup as (_ & Hpre & Hpost).
  apply NoDup_cons in Hpost as [Hpost _].
  split; apply Forall_forall; intros h' Hh'.
  - intros [Hname' _]. apply (Hpre (name h')).
    + by apply list_elem_of_fmap_2.
    + rewrite Hname', <- Hname. by left.
  - intros Hname'. apply Hpost. unfold name_matches in Hname'.
    rewrite Hname, <- Hname'. by apply list_elem_of_fmap_2.
Qed.

(** X1: on a device path, the device router runs the first table entry that
    matches the name and the signature of the call, once, and sends what it
    returns as it is; when the handler returns no message nothing is sent,
    and the call still counts as handled. *)
Theorem msg_func_device_runs_first_match pre h post msg data s :
  path_id data ≠ DEVICE_ROOT_ID →
  Forall (λ h', ¬ signature_matches msg h') pre →
  signature_matches msg h →
  let r :=
    handler_func h msg data
      (logged s [handler_func_call (name h) (signature h)]) in
  msg_func_device_on w (pre ++ h :: post) msg data s =
  (DBUS_HANDLER_RESULT_HANDLED,
   match r.1 with
   | Some reply => logged r.2 [dbus_connection_send_call reply]
   | None => r.2
   end).
Proof.
  intros Hpath Hpre Hh r. unfold msg_func_device_on.
  rewrite decide_False by exact Hpath. unfold bind.
  rewrite (msg_func_device_loop_first_match pre h post msg data _ s Hpre Hh).
  rewrite call_handler_func_eq. fold r.
  unfold send_router_reply. simpl.
  destruct (r.1) as [reply|]; [|reflexivity].
  destruct (r.2) as [c d t p tr]. reflexivity.
Qed.


(** X3: when no two entries of the service tables share a name, a call
    whose name and signature are those of an entry reaches the handler of
    that entry, through the device router on a device path and through the
    manager router on the manager interface, and the reply of the handler
    is what the caller is sent. *)
Theorem services_reach_their_handler h msg data s :
  signature_matches msg h →
  let r :=
    handler_func h msg data
      (logged s [handler_func_call (name h) (signature h)]) in
  let answered :=
    match r.1 with
    | Some reply => logged r.2 [dbus_connection_send_call reply]
    | None => r.2
    end in
  (NoDup (name <$> dev_services w) → h ∈ dev_services w →
   path_id data ≠ DEVICE_ROOT_ID →
   msg_func_device w msg data s =
     (DBUS_HANDLER_RESULT_HANDLED, answered)) ∧
  (NoDup (name <$> mgr_services w) → h ∈ mgr_services w →
   dbus_message_get_interface msg = MANAGER_INTERFACE →
   msg_func_manager w msg data s =
     (DBUS_HANDLER_RESULT_HANDLED, answered)).
Proof.
  intros Hh r answered. split.
  - intros Hnodup Hin Hpath.
    destruct (unique_name_split _ h msg Hnodup Hin Hh)
      as (pre & post & Heq & Hpre & _).
    unfold msg_func_device, msg_func_device_on. rewrite Heq.
    rewrite decide_False by exact Hpath. unfold bind.
    rewrite (msg_func_device_loop_first_match pre h post msg data _ s
               Hpre Hh).
    rewrite call_handler_func_eq. fold r.
    unfold send_router_reply, answered. simpl.
    destruct (r.1) as [reply|]; [|reflexivity].
    destruct (r.2) as [c d t p tr]. reflexivity.
  - intros Hnodup Hin Hif.
    destruct (unique_name_split _ h msg Hnodup Hin Hh)
      as (pre & post & Heq & Hpre & Hpost).
    assert (Forall (λ h', ¬ signature_matches msg h') post) as Hpost'.
    { eapply Forall_impl; [exact Hpost|]. intros h' Hn [Hs _]. by apply Hn. }
    unfold msg_func_manager, msg_func_manager_on. rewrite Heq.
    rewrite decide_False by (intros Hn; by apply Hn). unfold bind.
    rewrite (msg_func_manager_loop_match pre h post msg data _ s
               Hpre Hh Hpost').
    rewrite call_handler_func_eq. fold r.
    unfold after_mismatches. rewrite decide_False.
    + unfold send_router_reply, answered. simpl.
      destruct (r.1) as [reply|]; [|reflexivity].
      destruct (r.2) as [c d t p tr]. reflexivity.
    + rewrite Exists_exists. intros (h' & Hin' & Hn).
      rewrite Forall_forall in Hpost. by apply (Hpost h').
Qed.

End dispatch.

(** ** What the handlers leave alone *)

Section handlers.

Context {dbus_header : dbus_h} {hci_header : hci_h}.
Variable w : World.

Local Opaque bluez_new_failure_msg.

Ltac keeps_state_leaf :=
  first
    [ exists []; split; [symmetry; apply logged_nil | exact I]
    | eexists; split;
      [ unfold logged; cbn [connection default_dev object_tree pending trace];
        rewrite <- ?app_assoc; reflexivity
      | unfold descriptors_balanced, descriptor_calls; simpl;
        first [exact I | lia | split; [lia | reflexivity]] ] ].

Ltac keeps_state_steps :=
  unfold keeps_state; intros msg data s; destruct s as [c d t p tr];
  unfold bind, hci_open_dev, hci_send_req, socket, close, hci_close_dev,
    dbus_connection_send, bind, log, get_state, ret;
  cbn [negb fst snd connection default_dev object_tree pending trace];
  repeat (first [ match goal with
                  | H : (_, _) = (_, _) |- _ => injection H as <- <-
                  end
                | case_decide
                | match goal with
                  | |- context [negb ?b] => destruct b eqn:?
                  end
                | case_match ];
          cbn [negb fst snd connection default_dev object_tree pending
               trace]);
  keeps_state_leaf.

Lemma not_implemented_keeps_state : keeps_state w (not_implemented w).
Proof. unfold not_implemented. keeps_state_steps. Qed.

Lemma handle_dev_get_address_req_keeps_state :
  keeps_state w (handle_dev_get_address_req w).
Proof. unfold handle_dev_get_address_req. keeps_state_steps. Qed.

Lemma handle_dev_get_version_req_keeps_state :
  keeps_state w (handle_dev_get_version_req w).
Proof. unfold handle_dev_get_version_req. keeps_state_steps. Qed.

Lemma handle_dev_get_revision_req_keeps_state :
  keeps_state w (handle_dev_get_revision_req w).
Proof. unfold handle_dev_get_revision_req. keeps_state_steps. Qed.

Lemma handle_dev_get_manufacturer_req_keeps_state :
  keeps_state w (handle_dev_get_manufacturer_req w).
Proof. unfold handle_dev_get_manufacturer_req. keeps_state_steps. Qed.

Lemma handle_dev_get_company_req_keeps_state :
  keeps_state w (handle_dev_get_company_req w).
Proof. unfold handle_dev_get_company_req. keeps_state_steps. Qed.

Lemma handle_dev_get_mode_req_keeps_state :
  keeps_state w handle_dev_get_mode_req.
Proof. unfold handle_dev_get_mode_req. keeps_state_steps. Qed.

Lemma handle_dev_get_name_req_keeps_state :
  keeps_state w (handle_dev_get_name_req w).
Proof. unfold handle_dev_get_name_req. keeps_state_steps. Qed.

Lemma handle_dev_set_mode_req_keeps_state :
  keeps_state w (handle_dev_set_mode_req w).
Proof. unfold handle_dev_set_mode_req. keeps_state_steps. Qed.

Lemma handle_dev_set_name_req_keeps_state :
  keeps_state w (handle_dev_set_name_req w).
Proof. unfold handle_dev_set_name_req. keeps_state_steps. Qed.

Lemma handle_dev_discover_req_keeps_state :
  keeps_state w (handle_dev_discover_req w).
Proof. unfold handle_dev_discover_req. keeps_state_steps. Qed.

Lemma handle_dev_discover_cancel_req_keeps_state :
  keeps_state w (handle_dev_discover_cancel_req w).
Proof. unfold handle_dev_discover_cancel_req. keeps_state_steps. Qed.

Lemma handle_dev_remote_name_req_keeps_state :
  keeps_state w (handle_dev_remote_name_req w).
Proof. unfold handle_dev_remote_name_req. keeps_state_steps. Qed.

Lemma handle_dev_create_bonding_req_keeps_state :
  keeps_state w (handle_dev_create_bonding_req w).
Proof. unfold handle_dev_create_bonding_req. keeps_state_steps. Qed.

Lemma handle_mgr_device_list_req_keeps_state :
  keeps_state w (handle_mgr_device_list_req w).
Proof. unfold handle_mgr_device_list_req. keeps_state_steps. Qed.

Lemma handle_mgr_default_device_req_keeps_state :
  keeps_state w (handle_mgr_default_device_req w).
Proof. unfold handle_mgr_default_device_req. keeps_state_steps. Qed.

(** X4: no handler of the two service tables changes the connection, the
    default controller, the object tree or the pending calls: a handler
    only makes calls.  Among them it asks for at most one descriptor (by
    opening a controller, or the HCI socket in ListDevices), closes
    nothing when that fails and closes the descriptor once when it
    succeeds, on every path. *)
Theorem handlers_keep_state_and_descriptors h msg data s :
  h ∈ dev_services w ++ mgr_services w →
  ∃ evs,
    (handler_func h msg data s).2 = logged s evs ∧
    descriptors_balanced w evs.
Proof.
  intros Hin. revert msg data s. change (keeps_state w (handler_func h)).
  unfold dev_services, mgr_services in Hin. simpl in Hin.
  repeat (apply elem_of_cons in Hin as [-> | Hin];
          [ cbn [handler_func dev_service mgr_service];
            first [ apply not_implemented_keeps_state
                  | apply handle_dev_get_address_req_keeps_state
                  | apply handle_dev_get_version_req_keeps_state
                  | apply handle_dev_get_revision_req_keeps_state
                  | apply handle_dev_get_manufacturer_req_keeps_state
                  | apply handle_dev_get_company_req_keeps_state
                  | apply handle_dev_get_mode_req_keeps_state
                  | apply handle_dev_get_name_req_keeps_state
                  | apply handle_dev_set_mode_req_keeps_state
                  | apply handle_dev_set_name_req_keeps_state
                  | apply handle_dev_discover_req_keeps_state
                  | apply handle_dev_discover_cancel_req_keeps_state
                  | apply handle_dev_remote_name_req_keeps_state
                  | apply handle_dev_create_bonding_req_keeps_state
                  | apply handle_mgr_device_list_req_keeps_state
                  | apply handle_mgr_default_device_req_keeps_state ] |]).
  by apply elem_of_nil in Hin.
Qed.

End handlers.

(** ** Error paths of the handlers *)

Section handler_errors.

Context {dbus_header : dbus_h} {hci_header : hci_h}.
Variable w : World.


(** A text of [hci_error_array] belongs to one of the status codes of the
    table. *)
Lemma hci_error_array_codes ecode text :
  {| code := ecode; str := Some text |} ∈ hci_error_array →
  ecode ∈ hci_error_code <$> hci_error_macros.
Proof.
  intros Hin. destruct hci_error_array_body as [Harr Hcodes].
  rewrite Harr in Hin. apply elem_of_app in Hin as [Hin | Hin].
  - rewrite <- Hcodes.
    by apply (list_elem_of_fmap_2 code) in Hin.
  - apply list_elem_of_singleton in Hin. discriminate.
Qed.

(** A status code outside both ranges and outside the table has no text,
    and no failure message. *)
Lemma bluez_new_failure_msg_unknown_status msg ecode :
  Z.land ecode BLUEZ_ESYSTEM_OFFSET = 0 →
  Z.land ecode BLUEZ_EDBUS_OFFSET = 0 →
  ecode ∉ hci_error_code <$> hci_error_macros →
  bluez_new_failure_msg w msg ecode = None.
Proof.
  intros Hsys Hdbus Hout. unfold bluez_new_failure_msg, bluez_dbus_error_to_str.
  rewrite decide_False by (intros Hn; by apply Hn).
  rewrite decide_False by (intros Hn; by apply Hn).
  rewrite error_array_lookup_absent; [reflexivity|].
  intros text Hin. apply Hout. by apply (hci_error_array_codes ecode text).
Qed.


(** X6: when the controller answers CancelDiscovery with a status that is
    not zero, lies outside both error ranges and has no entry in
    [hci_error_array], no failure message can be built: the handler
    returns no reply at all, after closing the controller. *)
Theorem unknown_status_gets_no_reply msg data s :
  let dd := w_hci_open_dev w (dev_id data) in
  let rp := w_hci_send_req w dd OGF_LINK_CTL OCF_INQUIRY_CANCEL no_cp in
  let ecode := uint32 (BLUEZ_EBT_OFFSET + uint8 (rp_status rp)) in
  0 ≤ dd → 0 ≤ rq_ret rp → uint8 (rp_status rp) ≠ 0 →
  Z.land ecode BLUEZ_ESYSTEM_OFFSET = 0 →
  Z.land ecode BLUEZ_EDBUS_OFFSET = 0 →
  ecode ∉ hci_error_code <$> hci_error_macros →
  handle_dev_discover_cancel_req w msg data s =
  (None,
   logged s [hci_open_dev_call (dev_id data);
             hci_send_req_call dd OGF_LINK_CTL OCF_INQUIRY_CANCEL no_cp 100;
             hci_close_dev_call dd]).
Proof.
  intros dd rp ecode Hdd Hret Hstatus Hsys Hdbus Hout.
  unfold handle_dev_discover_cancel_req, hci_open_dev, hci_send_req,
    hci_close_dev, bind, log, ret.
  cbn [fst snd]. fold dd.
  rewrite decide_False by lia. cbn [fst snd]. fold rp.
  rewrite decide_False by lia.
  rewrite decide_True by exact Hstatus.
  fold ecode.
  rewrite (bluez_new_failure_msg_unknown_status msg ecode Hsys Hdbus Hout).
  destruct s as [c d t p tr]. f_equal. trace_eq.
Qed.


End handler_errors.

(** ** The object tree *)

Section registry_round_trip.

Context {dbus_header : dbus_h} {hci_header : hci_h}.
Variable w : World.

(** The state a successful [hcid_dbus_register_device] leaves. *)
Lemma hcid_dbus_register_device_eq id s :
  path_registers w id = true →
  hcid_dbus_register_device w id s =
  (true,
   {| connection := connection s;
      default_dev := if bool_decide (default_dev s < 0) then id
                     else default_dev s;
      object_tree := <[device_path id := device_entry w id]> (object_tree s);
      pending := pending s;
      trace := trace s ++ register_device_calls w id |}).
Proof.
  intros Hreg. unfold path_registers in Hreg.
  assert ((register_dbus_path w (device_path id) DEVICE_PATH_ID id
             obj_dev_vtable false s).1 = true) as Htrue.
  { rewrite register_dbus_path_eq. by rewrite Hreg. }
  rewrite (hcid_dbus_register_device_bound w id _ s
             (register_dbus_path_true w _ _ _ _ _ _ Htrue)).
  rewrite Htrue. cbn [andb]. f_equal. f_equal.
  unfold with_path_data.
  rewrite (register_dbus_path_true w _ _ _ _ _ _ Htrue).
  cbn [op_vtable op_fallback op_data dev_id path_id].
  rewrite register_dbus_path_eq, Hreg. cbn [snd object_tree].
  by rewrite insert_insert_eq.
Qed.

Lemma hcid_dbus_unregister_device_eq id s :
  w_dbus_connection_unregister_object_path w (device_path id) = true →
  hcid_dbus_unregister_device w id s =
  (true,
   {| connection := connection s;
      default_dev := if bool_decide (default_dev s = id)
                     then w_hci_get_route w else default_dev s;
      object_tree := delete (device_path id) (object_tree s);
      pending := pending s;
      trace := trace s ++
               (if w_dbus_message_new w then
                  [dbus_connection_send_call
                     (manager_signal BLUEZ_MGR_DEV_REMOVED id)]
                else []) ++
               match object_tree s !! device_path id with
               | Some _ => [free_call (device_path id)]
               | None => []
               end |}).
Proof.
  intros Hunreg.
  unfold hcid_dbus_unregister_device, manager_signal, bind.
  generalize dependent (device_path id). intros path Hunreg.
  destruct s as [c d t p tr].
  unfold dbus_connection_send, bind, log, ret.
  destruct (w_dbus_message_new w);
    cbn [negb fst snd andb connection default_dev object_tree pending trace];
    rewrite unregister_dbus_path_eq, Hunreg;
    unfold get_state, when, set_default_dev, ret;
    cbn [negb fst snd andb connection default_dev object_tree pending trace];
    case_bool_decide;
    cbn [negb fst snd andb connection default_dev object_tree pending trace];
    rewrite <- ?app_assoc; reflexivity.
Qed.

Lemma substring_all s n :
  (String.length s ≤ n)%nat → String.substring 0 n s = s.
Proof.
  revert n. induction s as [|a s IH]; intros n Hlen.
  - by destruct n.
  - destruct n as [|n]; simpl in *; [lia|]. rewrite IH; [done|lia].
Qed.

Lemma device_path_fits id :
  path_fits id → device_path id = DEVICE_PATH +:+ "/hci" +:+ pretty id.
Proof.
  unfold path_fits, device_path, snprintf, MAX_PATH_LENGTH. intros Hfit.
  apply substring_all. lia.
Qed.

Lemma device_path_inj id1 id2 :
  path_fits id1 → path_fits id2 →
  device_path id1 = device_path id2 → id1 = id2.
Proof.
  intros H1 H2. rewrite !device_path_fits by assumption. intros Heq.
  apply (inj (String.app DEVICE_PATH)) in Heq.
  apply (inj (String.app "/hci")) in Heq.
  by apply (inj pretty) in Heq.
Qed.

(** X8: registering a controller whose path is free and unregistering it
    again restores the object tree; in between the path is bound to the
    controller, and a daemon that had no default controller has this one
    as its default, then the one [hci_get_route] names. *)
Theorem register_unregister_round_trip id s :
  object_tree s !! device_path id = None →
  path_registers w id = true →
  w_dbus_connection_unregister_object_path w (device_path id) = true →
  let s1 := (hcid_dbus_register_device w id s).2 in
  let s2 := (hcid_dbus_unregister_device w id s1).2 in
  object_tree s1 !! device_path id = Some (device_entry w id) ∧
  object_tree s2 = object_tree s ∧
  connection s2 = connection s ∧ pending s2 = pending s ∧
  (default_dev s < 0 →
   default_dev s1 = id ∧ default_dev s2 = w_hci_get_route w).
Proof.
  intros Hfree Hreg Hunreg s1 s2. subst s2 s1.
  rewrite hcid_dbus_register_device_eq by exact Hreg. cbn [snd].
  rewrite hcid_dbus_unregister_device_eq by exact Hunreg.
  cbn [snd connection default_dev object_tree pending trace].
  split; [apply lookup_insert_eq|].
  split; [by rewrite delete_insert_id|].
  split; [done|]. split; [done|].
  intros Hnone. rewrite bool_decide_eq_true_2 by exact Hnone.
  by rewrite bool_decide_eq_true_2.
Qed.

(** X9: controllers whose paths fit the path buffer have different paths,
    so registering one leaves the entry of every other controller as it
    is. *)
Theorem register_keeps_other_controllers id1 id2 s :
  path_fits id1 → path_fits id2 → id1 ≠ id2 →
  path_registers w id2 = true →
  device_path id1 ≠ device_path id2 ∧
  object_tree (hcid_dbus_register_device w id2 s).2 !! device_path id1 =
  object_tree s !! device_path id1.
Proof.
  intros H1 H2 Hne Hreg.
  assert (device_path id1 ≠ device_path id2) as Hpath.
  { intros Heq. apply Hne. by apply device_path_inj. }
  split; [exact Hpath|].
  rewrite hcid_dbus_register_device_eq by exact Hreg.
  cbn [snd object_tree]. by rewrite lookup_insert_ne.
Qed.

End registry_round_trip.

(** ** Registration and the services that read it *)

Section registration_services.

Context {dbus_header : dbus_h} {hci_header : hci_h}.
Variable w : World.




(** X11: once a daemon without default controller has registered
    controller [id], DefaultDevice answers the device path of [id], and
    that path is bound to [id] in the object tree; when the controller is
    unregistered again and [hci_get_route] finds no other, DefaultDevice
    answers with the failure of [BLUEZ_ESYSTEM_ENODEV]. *)
Theorem default_device_follows_registration id msg data s :
  default_dev s < 0 → 0 ≤ id →
  path_registers w id = true → w_dbus_message_new w = true →
  let s1 := (hcid_dbus_register_device w id s).2 in
  let s2 := (hcid_dbus_unregister_device w id s1).2 in
  handle_mgr_default_device_req w msg data s1 =
    (Some (string_reply msg (device_path id)), s1) ∧
  dev_id ∘ op_data <$> object_tree s1 !! device_path id = Some id ∧
  (w_dbus_connection_unregister_object_path w (device_path id) = true →
   w_hci_get_route w < 0 →
   handle_mgr_default_device_req w msg data s2 =
     (bluez_new_failure_msg w msg BLUEZ_ESYSTEM_ENODEV, s2)).
Proof.
  intros Hnone Hid Hreg Hnew s1 s2. subst s2 s1.
  rewrite hcid_dbus_register_device_eq by exact Hreg. cbn [snd].
  rewrite bool_decide_eq_true_2 by exact Hnone.
  split; [|split].
  - unfold handle_mgr_default_device_req, bind, get_state, ret.
    cbn [fst snd default_dev].
    rewrite decide_False by lia. by rewrite Hnew.
  - cbn [object_tree]. by rewrite lookup_insert_eq.
  - intros Hunreg Hroute.
    rewrite hcid_dbus_unregister_device_eq by exact Hunreg.
    cbn [snd default_dev].
    rewrite bool_decide_eq_true_2 by reflexivity.
    unfold handle_mgr_default_device_req, bind, get_state, ret.
    cbn [fst snd default_dev].
    by rewrite decide_True by exact Hroute.
Qed.

End registration_services.

(** ** Joining, leaving and rejoining the bus *)

Section bus.

Context {dbus_header : dbus_h} {hci_header : hci_h}.
Variable w : World.

(** What [hcid_dbus_init] leaves whatever it returns. *)
Lemma hcid_dbus_init_keeps s :
  connection (hcid_dbus_init w s).2 = w_dbus_bus_get w ∧
  default_dev (hcid_dbus_init w s).2 = default_dev s.
Proof.
  unfold hcid_dbus_init, bind, set_connection, ret.
  cbn [fst snd].
  destruct (w_dbus_bus_get w); cbn [negb]; [|done].
  destruct (w_dbus_bus_request_name w); cbn [negb]; [|done].
  rewrite !register_dbus_path_eq.
  destruct (w_malloc w && w_dbus_connection_register_fallback w DEVICE_PATH);
    cbn [negb fst snd]; [|done].
  rewrite !register_dbus_path_eq.
  destruct (w_malloc w &&
            w_dbus_connection_register_object_path w MANAGER_PATH);
    cbn [negb fst snd]; [|done].
  by destruct (w_dbus_connection_add_filter w).
Qed.

(** What a successful [hcid_dbus_init] leaves. *)
Lemma hcid_dbus_init_true s :
  (hcid_dbus_init w s).1 = true →
  w_malloc w = true ∧
  (hcid_dbus_init w s).2 =
  {| connection := true; default_dev := default_dev s;
     object_tree :=
       <[MANAGER_PATH := manager_entry w]>
         (<[DEVICE_PATH := device_root_entry w]> (object_tree s));
     pending := pending s; trace := trace s |}.
Proof.
  unfold hcid_dbus_init, bind, set_connection, ret.
  cbn [fst snd].
  destruct (w_dbus_bus_get w); cbn [negb]; [|done].
  destruct (w_dbus_bus_request_name w); cbn [negb]; [|done].
  rewrite !register_dbus_path_eq.
  destruct (w_malloc w); cbn [andb]; [|done].
  destruct (w_dbus_connection_register_fallback w DEVICE_PATH);
    cbn [negb fst snd]; [|done].
  rewrite !register_dbus_path_eq.
  destruct (w_malloc w); cbn [andb]; [|done].
  destruct (w_dbus_connection_register_object_path w MANAGER_PATH);
    cbn [negb fst snd]; [|done].
  by destruct (w_dbus_connection_add_filter w).
Qed.


Lemma unregisters_nil p s : unregisters w [] p s s.
Proof.
  repeat split. exists []. rewrite app_nil_r.
  split; [done|]. split; [constructor|].
  split; [|split]; try done; intros Hin; by apply elem_of_nil in Hin.
Qed.

Lemma unregisters_one path p s :
  unregisters w [path] p s (unregister_dbus_path w path s).2.
Proof.
  rewrite unregister_dbus_path_eq.
  cbn [snd connection default_dev object_tree pending trace].
  repeat split. eexists. split; [reflexivity|].
  split; [|split; [|split]].
  - destruct (object_tree s !! path); repeat constructor.
    exists path. split; [done|by left].
  - intros Hin Hagreed. apply list_elem_of_singleton in Hin as ->.
    rewrite Hagreed. apply lookup_delete_eq.
  - intros Hnot. apply not_elem_of_cons in Hnot as [Hne _].
    destruct (w_dbus_connection_unregister_object_path w path); [|done].
    apply lookup_delete_ne. by intros ->.
  - intros Hin Hrefused [op Hop].
    apply list_elem_of_singleton in Hin as ->.
    rewrite Hrefused, Hop. split; [by exists op|by left].
Qed.

Lemma unregisters_app paths1 paths2 p s s1 s2 :
  unregisters w paths1 p s s1 → unregisters w paths2 p s1 s2 →
  unregisters w (paths1 ++ paths2) p s s2.
Proof.
  intros (Hc1 & Hd1 & Hp1 & evs1 & Ht1 & Hf1 & Hgone1 & Hkept1 & Hfreed1)
         (Hc2 & Hd2 & Hp2 & evs2 & Ht2 & Hf2 & Hgone2 & Hkept2 & Hfreed2).
  split; [congruence|]. split; [congruence|]. split; [congruence|].
  exists (evs1 ++ evs2).
  split; [by rewrite Ht2, Ht1, app_assoc|].
  split; [|split; [|split]].
  - apply Forall_app. split.
    + eapply Forall_impl; [exact Hf1|].
      intros e (q & -> & Hq). exists q. split; [done|].
      apply elem_of_app. by left.
    + eapply Forall_impl; [exact Hf2|].
      intros e (q & -> & Hq). exists q. split; [done|].
      apply elem_of_app. by right.
  - intros Hin Hagreed.
    destruct (decide (p ∈ paths2)) as [Hin2|Hnot2]; [by apply Hgone2|].
    rewrite Hkept2 by exact Hnot2.
    apply elem_of_app in Hin as [Hin1|Hin2]; [by apply Hgone1|done].
  - intros Hnot. apply not_elem_of_app in Hnot as [Hnot1 Hnot2].
    by rewrite Hkept2, Hkept1.
  - intros Hin Hrefused Hbound.
    destruct (decide (p ∈ paths1)) as [Hin1|Hnot1].
    + destruct (Hfreed1 Hin1 Hrefused Hbound) as [Hbound1 Hfree1].
      split; [|apply elem_of_app; by left].
      destruct (decide (p ∈ paths2)) as [Hin2|Hnot2].
      * by apply Hfreed2.
      * by rewrite Hkept2.
    + apply elem_of_app in Hin as [Hin1|Hin2]; [done|].
      rewrite <- (Hkept1 Hnot1) in Hbound.
      destruct (Hfreed2 Hin2 Hrefused Hbound) as [Hbound2 Hfree2].
      split; [done|]. apply elem_of_app. by right.
Qed.

Lemma unregister_children_unregisters children p s :
  unregisters w (child_path <$> children) p s
    (unregister_children w children s).2.
Proof.
  revert s. induction children as [|child children IH]; intros s.
  - apply unregisters_nil.
  - cbn [unregister_children]. unfold bind. fold (child_path child).
    pose proof (unregisters_one (child_path child) p s) as Hone.
    destruct (unregister_dbus_path w (child_path child) s) as [b s1].
    cbn [snd] in *. rewrite fmap_cons.
    apply (unregisters_app [child_path child] _ p s s1); [exact Hone|].
    apply IH.
Qed.

(** X13: [hcid_dbus_exit] does nothing without a connection.  With one,
    it changes the object tree and the trace only, and the calls it makes
    are the [free]s of user data bound to the paths it asks the bus to
    unregister: the path of each listed child of the device root, then
    the two roots.  Such a path is unbound afterwards when the bus agrees
    to unregister it; when the bus refuses and the path was bound, it is
    still bound and its user data have been freed all the same.  Every
    other path keeps its entry: so when the children cannot be listed the
    device paths stay bound.  The connection is not reset. *)
Theorem hcid_dbus_exit_unregisters children p s :
  let s1 := (hcid_dbus_exit w children s).2 in
  (connection s = false → s1 = s) ∧
  (connection s = true →
   connection s1 = true ∧ default_dev s1 = default_dev s ∧
   pending s1 = pending s ∧
   ∃ evs,
     trace s1 = trace s ++ evs ∧
     Forall (λ e, ∃ q, e = free_call q ∧ q ∈ exit_paths children) evs ∧
     (unregistered_at_exit w children p → object_tree s1 !! p = None) ∧
     (p ∉ exit_paths children →
      object_tree s1 !! p = object_tree s !! p) ∧
     (p ∈ exit_paths children →
      w_dbus_connection_unregister_object_path w p = false →
      is_Some (object_tree s !! p) →
      is_Some (object_tree s1 !! p) ∧ free_call p ∈ evs)).
Proof.
  intros s1. subst s1. unfold hcid_dbus_exit, bind, get_state.
  cbn [fst snd]. split.
  - intros ->. reflexivity.
  - intros Hconn. rewrite Hconn. cbn [negb].
    assert (unregisters w (child_path <$> default [] children) p s
              ((match children with
                | Some children => unregister_children w children
                | None => ret ()
                end) s).2) as Hchildren.
    { destruct children as [children|].
      - apply unregister_children_unregisters.
      - apply unregisters_nil. }
    destruct ((match children with
               | Some children => unregister_children w children
               | None => ret ()
               end) s) as [[] s1].
    cbn [snd] in Hchildren.
    pose proof (unregisters_one DEVICE_PATH p s1) as Hdev.
    destruct (unregister_dbus_path w DEVICE_PATH s1) as [b2 s2].
    cbn [snd] in Hdev.
    pose proof (unregisters_one MANAGER_PATH p s2) as Hmgr.
    destruct (unregister_dbus_path w MANAGER_PATH s2) as [b3 s3].
    cbn [snd] in Hmgr. unfold ret. cbn [snd].
    pose proof (unregisters_app _ _ p _ _ _ Hchildren
                  (unregisters_app _ _ p _ _ _ Hdev Hmgr)) as Hall.
    change ([DEVICE_PATH] ++ [MANAGER_PATH])
      with [DEVICE_PATH; MANAGER_PATH] in Hall.
    fold (exit_paths children) in Hall.
    destruct Hall as (Hc & Hd & Hp & evs & Ht & Hf & Hgone & Hkept & Hfreed).
    split; [congruence|]. split; [exact Hd|]. split; [exact Hp|].
    exists evs. split; [exact Ht|]. split; [exact Hf|].
    split; [|split; [exact Hkept|exact Hfreed]].
    intros [Hin Hagreed]. by apply Hgone.
Qed.

Lemma filter_all {A} (f : A → bool) l :
  Forall (λ x, f x = true) l → List.filter f l = l.
Proof.
  induction 1 as [|x l Hx _ IH]; [done|].
  cbn [List.filter]. by rewrite Hx, IH.
Qed.

(** X14: when the reconnection handler cannot join the bus it stops there,
    leaving the default controller as it was.  When it joins the bus and
    the kernel lists controllers that all register, the default
    controller is forgotten and becomes the first controller of the list,
    or none when the list is empty. *)
Theorem reconnect_resets_default dl s :
  ((hcid_dbus_init w s).1 = false →
   (reconnect_timer_handler w s).2 = (hcid_dbus_init w s).2 ∧
   default_dev (reconnect_timer_handler w s).2 = default_dev s) ∧
  ((hcid_dbus_init w s).1 = true → 0 ≤ w_socket w →
   w_HCIGETDEVLIST w = Some dl →
   Forall (λ dr, 0 ≤ dr_dev_id dr ∧
                 path_registers w (dr_dev_id dr) = true) dl →
   default_dev (reconnect_timer_handler w s).2 =
   default (-1) (head (dr_dev_id <$> dl))).
Proof.
  unfold reconnect_timer_handler, bind. split.
  - intros Hfalse.
    destruct (hcid_dbus_init_keeps s) as [_ Hdef].
    destruct (hcid_dbus_init w s) as [ok s0]. cbn [fst snd] in *.
    rewrite Hfalse. cbn [negb]. by split.
  - intros Htrue Hsock Hlist Hall.
    destruct (hcid_dbus_init_true s Htrue) as [Hmalloc _].
    destruct (hcid_dbus_init w s) as [ok s0]. cbn [fst snd] in *.
    rewrite Htrue. cbn [negb].
    unfold socket, bind, log, ret. cbn [fst snd].
    rewrite decide_False by lia. rewrite Hmalloc, Hlist. cbn [negb].
    unfold close, log, set_default_dev.
    match goal with
    | |- context [register_devices w ?ids ?s'] =>
        pose proof (register_devices_default w ids s') as Hdef;
        destruct (register_devices w ids s') as [[] s2]
    end.
    cbn [fst snd default_dev] in *.
    rewrite Hdef.
    + rewrite filter_all; [done|].
      apply Forall_fmap. eapply Forall_impl; [exact Hall|].
      by intros dr [_ ?].
    + lia.
    + apply Forall_fmap. eapply Forall_impl; [exact Hall|].
      by intros dr [? _].
Qed.

End bus.

(** ** Controller events *)

Section events.

Context {dbus_header : dbus_h} {hci_header : hci_h}
  {signals_header : dbus_signals_h}.
Variable w : World.

(** X15: each of the six controller events makes no call but at most one
    send.  An event of a controller [hci_devid] does not know, or for
    which no message can be allocated, is dropped without a trace;
    otherwise exactly one message is sent, a signal of the device
    interface on the device path of that controller, and for the events
    about a peer its first argument is the printed address of the peer.
    Nothing else of the state changes. *)
Theorem events_send_one_signal local ev s :
  let id := w_hci_devid w (w_batostr w (baswap local)) in
  ∃ evs,
    (hcid_dbus_event w local ev s).2 = logged s evs ∧
    evs = dbus_connection_send_call <$> sent_messages evs ∧
    Forall (device_signal_of id) (sent_messages evs) ∧
    length (sent_messages evs) =
      (if decide (0 ≤ id ∧ w_dbus_message_new w = true) then 1%nat
       else 0%nat) ∧
    (∀ peer m,
       event_peer ev = Some peer → m ∈ sent_messages evs →
       head (msg_args m) =
       Some (DBUS_TYPE_STRING (w_batostr w (baswap peer)))).
Proof.
  intros id.
  destruct s as [c d t p tr].
  destruct ev as [peer status| | |peer class rssi|peer name|peer status];
    cbn [hcid_dbus_event event_peer];
    unfold hcid_dbus_bonding_created_complete, hcid_dbus_discover_start,
      hcid_dbus_discover_complete, hcid_dbus_discover_result,
      hcid_dbus_remote_name, hcid_dbus_remote_name_failed,
      dbus_connection_send, bind, log, ret;
    fold id;
    (destruct (decide (id < 0)) as [Hid|Hid];
     [|destruct (w_dbus_message_new w) eqn:Hnew]);
    cbn [negb fst snd connection default_dev object_tree pending trace];
    first
      [ exists []; split;
        [unfold logged;
         cbn [connection default_dev object_tree pending trace];
         rewrite app_nil_r; reflexivity|]
      | eexists; split;
        [unfold logged;
         cbn [connection default_dev object_tree pending trace];
         reflexivity|] ];
    cbn [sent_messages omap fmap list_fmap length list_omap];
    (split; [reflexivity|]);
    (split; [repeat constructor|]);
    (split;
     [first [ rewrite decide_True by (split; [lia|done]); reflexivity
            | rewrite decide_False by (intros [? ?]; first [lia|done]);
              reflexivity ]|]);
    intros peer' m Hpeer Hm; try discriminate;
    try (by apply elem_of_nil in Hm);
    apply list_elem_of_singleton in Hm; subst m;
    injection Hpeer as <-; reflexivity.
Qed.



End events.

(** ** System errors and the device list *)

Section system_errors.

Context {dbus_header : dbus_h} {hci_header : hci_h}.
Variable w : World.




Lemma device_list_entry_head dl :
  omap struct_head (dl ≫= device_list_entry w) =
  DBUS_TYPE_STRING <$> listed_paths w dl.
Proof.
  unfold listed_paths.
  induction dl as [|dr dl IH]; [done|].
  cbn [mbind list_bind omap list_omap]. rewrite omap_app, IH.
  unfold device_list_entry at 1.
  destruct (w_HCIGETDEVINFO w (dr_dev_id dr)) as [di|]; reflexivity.
Qed.

Lemma device_list_entry_length dl :
  length (dl ≫= device_list_entry w) = length (listed_paths w dl).
Proof.
  unfold listed_paths. rewrite length_fmap.
  induction dl as [|dr dl IH]; [done|].
  cbn [mbind list_bind omap list_omap]. rewrite length_app, IH.
  unfold device_list_entry.
  destruct (w_HCIGETDEVINFO w (dr_dev_id dr)) as [di|]; reflexivity.
Qed.

(** X18: when the HCI socket opens, the kernel list can be read and the
    reply can be allocated, ListDevices opens the socket, closes it and
    answers one struct for each listed controller whose [HCIGETDEVINFO]
    succeeds, in the order of the list, headed by the device root followed
    by the name the kernel gives the controller; a controller the kernel
    names [hci<id>] is listed under the path [hcid_dbus_register_device]
    binds for [id]. *)
Theorem device_list_entries msg data dl s :
  0 ≤ w_socket w → w_malloc w = true → w_HCIGETDEVLIST w = Some dl →
  w_dbus_message_new w = true →
  (∃ entries,
     handle_mgr_device_list_req w msg data s =
       (Some (dbus_message_append_args (dbus_message_new_method_return msg)
                [DBUS_TYPE_ARRAY MGR_REPLY_DEVICE_LIST_STRUCT_SIGNATURE
                   entries]),
        logged s [socket_call; close_call (w_socket w)]) ∧
     length entries = length (listed_paths w dl) ∧
     omap struct_head entries = DBUS_TYPE_STRING <$> listed_paths w dl) ∧
  (∀ id, child_path ("hci" +:+ pretty id) = device_path id).
Proof.
  intros Hsock Hmalloc Hlist Hnew. split.
  - exists (dl ≫= device_list_entry w).
    split; [|split].
    + unfold handle_mgr_device_list_req, socket, close, bind, log, ret.
      cbn [fst snd].
      rewrite decide_False by lia. rewrite Hmalloc, Hlist, Hnew.
      cbn [negb]. destruct s as [c d t p tr]. f_equal. trace_eq.
    + apply device_list_entry_length.
    + apply device_list_entry_head.
  - intros id. reflexivity.
Qed.

End system_errors.

(** ** A controller that cannot be opened, a path that cannot be
    unregistered *)

Section refusals.

Context {dbus_header : dbus_h} {hci_header : hci_h}.
Variable w : World.

Local Opaque bluez_new_failure_msg.

(** X19: when the controller cannot be opened, every handler that needs it
    stops after the failed open: no request is made and nothing is closed.
    GetName, SetMode, SetName and CreateBonding answer with the failure of
    [BLUEZ_ESYSTEM_ENODEV]; Discover and CancelDiscovery answer with the
    failure of the errno of the open. *)
Theorem unopenable_controller_answers msg data s :
  w_hci_open_dev w (dev_id data) < 0 →
  let opened := logged s [hci_open_dev_call (dev_id data)] in
  let enodev := (bluez_new_failure_msg w msg BLUEZ_ESYSTEM_ENODEV, opened) in
  let errno :=
    (bluez_new_failure_msg w msg (uint32 (BLUEZ_ESYSTEM_OFFSET + w_errno w)),
     opened) in
  handle_dev_get_name_req w msg data s = enodev ∧
  (∀ X rest hci_mode,
     msg_args msg = DBUS_TYPE_BYTE X :: rest →
     hci_mode_of_scan_mode (uint8 X) = Some hci_mode →
     handle_dev_set_mode_req w msg data s = enodev) ∧
  (∀ str_name rest,
     msg_args msg = DBUS_TYPE_STRING str_name :: rest → str_name ≠ "" →
     handle_dev_set_name_req w msg data s = enodev) ∧
  (w_find_conn w (w_str2ba w (first_string_arg msg)) = dev_id data →
   0 ≤ dev_id data →
   handle_dev_create_bonding_req w msg data s = enodev) ∧
  handle_dev_discover_req w msg data s = errno ∧
  handle_dev_discover_cancel_req w msg data s = errno.
Proof.
  intros Hopen opened enodev errno. subst enodev errno opened.
  destruct s as [c d t p tr].
  repeat split.
  - unfold handle_dev_get_name_req, hci_open_dev, bind, log, ret.
    cbn [fst snd]. by rewrite decide_True by exact Hopen.
  - intros X rest hci_mode Hargs Hmode.
    unfold handle_dev_set_mode_req. rewrite Hargs, Hmode.
    unfold hci_open_dev, bind, log, ret.
    cbn [fst snd]. by rewrite decide_True by exact Hopen.
  - intros str_name rest Hargs Hname.
    unfold handle_dev_set_name_req, first_string_arg. rewrite Hargs.
    rewrite decide_False.
    + unfold hci_open_dev, bind, log, ret.
      cbn [fst snd]. by rewrite decide_True by exact Hopen.
    + intros Hlen. apply Hname. by destruct str_name.
  - intros Hconn Hid.
    unfold handle_dev_create_bonding_req. rewrite Hconn.
    rewrite decide_False by lia.
    rewrite decide_False by (intros Hn; by apply Hn).
    unfold hci_open_dev, bind, log, ret.
    cbn [fst snd]. by rewrite decide_True by exact Hopen.
  - unfold handle_dev_discover_req, hci_open_dev, bind, log, ret.
    cbn [fst snd]. by rewrite decide_True by exact Hopen.
  - unfold handle_dev_discover_cancel_req, hci_open_dev, bind, log, ret.
    cbn [fst snd]. by rewrite decide_True by exact Hopen.
Qed.

(** X20: [hcid_dbus_unregister_device] sends DeviceRemoved and frees the
    user data of the device path before it asks the bus to unregister the
    path: when the bus refuses, the function returns FALSE and the default
    controller is as before, yet DeviceRemoved has been sent and the path
    is still bound, to user data that have been freed. *)
Theorem unregister_refused_still_announced id s :
  w_dbus_connection_unregister_object_path w (device_path id) = false →
  w_dbus_message_new w = true →
  is_Some (object_tree s !! device_path id) →
  let r := hcid_dbus_unregister_device w id s in
  r.1 = false ∧
  trace r.2 =
    trace s ++
    [dbus_connection_send_call (manager_signal BLUEZ_MGR_DEV_REMOVED id);
     free_call (device_path id)] ∧
  is_Some (object_tree r.2 !! device_path id) ∧
  default_dev r.2 = default_dev s.
Proof.
  intros Hrefused Hnew [op Hop] r. subst r.
  unfold hcid_dbus_unregister_device, manager_signal, bind.
  generalize dependent (device_path id). intros path Hrefused Hop.
  destruct s as [c d t p tr]. cbn [object_tree] in Hop.
  unfold dbus_connection_send, bind, log, ret.
  rewrite Hnew.
  cbn [negb fst snd andb connection default_dev object_tree pending trace].
  rewrite unregister_dbus_path_eq, Hrefused.
  unfold get_state, when, ret.
  cbn [negb fst snd andb connection default_dev object_tree pending trace].
  rewrite Hop, <- app_assoc.
  split; [reflexivity|]. split; [reflexivity|]. split; [by exists op|done].
Qed.

End refusals.

(** ** The further statements at the concrete header *)

Section concrete_more.
Local Existing Instance bluez_dbus_h.
Local Existing Instance bluez_hci_h.
Local Existing Instance bluez_dbus_signals_h.

Lemma msg_func_device_runs_first_match_witness :
  path_id (hci0_data 0) ≠ DEVICE_ROOT_ID ∧
  signature_matches get_mode_call
    (dev_service DEV_GET_MODE handle_dev_get_mode_req) ∧
  msg_func_device quiet_world get_mode_call (hci0_data 0) hci0_registered =
  (DBUS_HANDLER_RESULT_HANDLED,
   logged hci0_registered
     [handler_func_call "GetMode" "";
      dbus_connection_send_call (mode_reply get_mode_call 0)]).
Proof.
  assert (path_id (hci0_data 0) ≠ DEVICE_ROOT_ID) as Hpath
    by (vm_compute; discriminate).
  assert (signature_matches get_mode_call
            (dev_service DEV_GET_MODE handle_dev_get_mode_req)) as Hh
    by (split; reflexivity).
  split; [exact Hpath|]. split; [exact Hh|].
  assert (Forall (λ h', ¬ signature_matches get_mode_call h')
            (take 6 (dev_services quiet_world))) as Hpre
    by (apply (bool_decide_unpack _); vm_compute; exact I).
  pose proof (msg_func_device_runs_first_match quiet_world
                (take 6 (dev_services quiet_world))
                (dev_service DEV_GET_MODE handle_dev_get_mode_req)
                (drop 7 (dev_services quiet_world))
                get_mode_call (hci0_data 0) hci0_registered
                Hpath Hpre Hh) as Hrun.
  vm_compute in Hrun. vm_compute. exact Hrun.
Defined.



Lemma services_reach_their_handler_witness :
  signature_matches (set_mode_call 2)
    (dev_service DEV_SET_MODE (handle_dev_set_mode_req quiet_world)) ∧
  NoDup (name <$> dev_services quiet_world) ∧
  msg_func_device quiet_world (set_mode_call 2) (hci0_data 0)
    hci0_registered =
  (DBUS_HANDLER_RESULT_HANDLED,
   logged hci0_registered
     [handler_func_call "SetMode" "y"; hci_open_dev_call 0;
      write_scan_enable_call 3 3; close_call 3;
      dbus_connection_send_call
        (dbus_message_new_method_return (set_mode_call 2))]).
Proof.
  assert (signature_matches (set_mode_call 2)
            (dev_service DEV_SET_MODE (handle_dev_set_mode_req quiet_world)))
    as Hh by (split; reflexivity).
  assert (NoDup (name <$> dev_services quiet_world)) as Hnodup
    by (apply (bool_decide_unpack _); vm_compute; exact I).
  split; [exact Hh|]. split; [exact Hnodup|].
  destruct (services_reach_their_handler quiet_world
              (dev_service DEV_SET_MODE (handle_dev_set_mode_req quiet_world))
              (set_mode_call 2) (hci0_data 0) hci0_registered Hh)
    as [Hdev _].
  assert (dev_service DEV_SET_MODE (handle_dev_set_mode_req quiet_world)
            ∈ dev_services quiet_world) as Hin
    by (unfold dev_services; repeat (first [by left | right])).
  assert (path_id (hci0_data 0) ≠ DEVICE_ROOT_ID) as Hpath
    by (vm_compute; discriminate).
  specialize (Hdev Hnodup Hin Hpath).
  vm_compute in Hdev. vm_compute. exact Hdev.
Defined.

Lemma handlers_keep_state_and_descriptors_witness :
  dev_service DEV_SET_MODE (handle_dev_set_mode_req quiet_world)
    ∈ dev_services quiet_world ++ mgr_services quiet_world ∧
  ∃ evs,
    (handle_dev_set_mode_req quiet_world (set_mode_call 2) (hci0_data 0)
       hci0_registered).2 = logged hci0_registered evs ∧
    descriptors_balanced quiet_world evs.
Proof.
  assert (dev_service DEV_SET_MODE (handle_dev_set_mode_req quiet_world)
            ∈ dev_services quiet_world ++ mgr_services quiet_world) as Hin
    by (apply elem_of_app; left; unfold dev_services;
        repeat (first [by left | right])).
  split; [exact Hin|].
  exact (handlers_keep_state_and_descriptors quiet_world
           (dev_service DEV_SET_MODE (handle_dev_set_mode_req quiet_world))
           (set_mode_call 2) (hci0_data 0) hci0_registered Hin).
Defined.


Lemma unknown_status_gets_no_reply_witness :
  (127 ∉ hci_error_code <$> hci_error_macros) ∧
  handle_dev_discover_cancel_req odd_status_world cancel_discovery_call
    (hci0_data 0) hci0_registered =
  (None,
   logged hci0_registered
     [hci_open_dev_call 0;
      hci_send_req_call 3 OGF_LINK_CTL OCF_INQUIRY_CANCEL no_cp 100;
      hci_close_dev_call 3]).
Proof.
  assert (127 ∉ hci_error_code <$> hci_error_macros) as Hout
    by (apply (bool_decide_unpack _); vm_compute; exact I).
  split; [exact Hout|].
  apply (unknown_status_gets_no_reply odd_status_world cancel_discovery_call
           (hci0_data 0) hci0_registered).
  - vm_compute. discriminate.
  - vm_compute. discriminate.
  - vm_compute. discriminate.
  - reflexivity.
  - reflexivity.
  - exact Hout.
Defined.


Lemma register_unregister_round_trip_witness :
  object_tree initial_state !! device_path 0 = None ∧
  path_registers quiet_world 0 = true ∧
  object_tree
    (hcid_dbus_unregister_device quiet_world 0 hci0_registered).2 =
  object_tree initial_state ∧
  default_dev hci0_registered = 0 ∧
  default_dev
    (hcid_dbus_unregister_device quiet_world 0 hci0_registered).2 = -1.
Proof.
  assert (object_tree initial_state !! device_path 0 = None) as Hfree
    by reflexivity.
  split; [exact Hfree|]. split; [reflexivity|].
  destruct (register_unregister_round_trip quiet_world 0 initial_state
              Hfree eq_refl eq_refl) as (_ & Htree & _ & _ & Hdef).
  split; [exact Htree|].
  apply Hdef. vm_compute. reflexivity.
Defined.

Lemma register_keeps_other_controllers_witness :
  path_fits 0 ∧ path_fits 1 ∧
  device_path 0 ≠ device_path 1 ∧
  object_tree (hcid_dbus_register_device quiet_world 1 hci0_registered).2
    !! device_path 0 =
  object_tree hci0_registered !! device_path 0.
Proof.
  assert (path_fits 0) as H0
    by (apply (bool_decide_unpack _); vm_compute; exact I).
  assert (path_fits 1) as H1
    by (apply (bool_decide_unpack _); vm_compute; exact I).
  split; [exact H0|]. split; [exact H1|].
  apply (register_keeps_other_controllers quiet_world 0 1 hci0_registered
           H0 H1); [lia|reflexivity].
Defined.


Lemma default_device_follows_registration_witness :
  default_dev initial_state < 0 ∧
  handle_mgr_default_device_req quiet_world default_device_call manager_data
    hci0_registered =
  (Some (string_reply default_device_call (device_path 0)),
   hci0_registered).
Proof.
  assert (default_dev initial_state < 0) as Hnone
    by (vm_compute; reflexivity).
  split; [exact Hnone|].
  destruct (default_device_follows_registration quiet_world 0
              default_device_call manager_data initial_state Hnone
              ltac:(lia) eq_refl eq_refl) as [Hdef _].
  exact Hdef.
Defined.



Lemma hcid_dbus_exit_unregisters_witness :
  connection hci0_registered = true ∧
  unregistered_at_exit quiet_world (Some ["hci0"]) (device_path 0) ∧
  object_tree (hcid_dbus_exit quiet_world (Some ["hci0"]) hci0_registered).2
    !! device_path 0 = None ∧
  object_tree (hcid_dbus_exit quiet_world None hci0_registered).2
    !! device_path 0 = object_tree hci0_registered !! device_path 0 ∧
  ∃ evs,
    trace (hcid_dbus_exit sticky_world (Some ["hci0"]) hci0_registered).2
    = trace hci0_registered ++ evs ∧
    is_Some
      (object_tree
         (hcid_dbus_exit sticky_world (Some ["hci0"]) hci0_registered).2
         !! device_path 0) ∧
    free_call (device_path 0) ∈ evs.
Proof.
  assert (unregistered_at_exit quiet_world (Some ["hci0"]) (device_path 0))
    as Hun by (apply (bool_decide_unpack _); vm_compute; exact I).
  assert (device_path 0 ∉ exit_paths None)
    as Hkept by (apply (bool_decide_unpack _); vm_compute; exact I).
  assert (device_path 0 ∈ exit_paths (Some ["hci0"]))
    as Hin by (apply (bool_decide_unpack _); vm_compute; exact I).
  destruct hci0_registered_data as [Hbound _].
  split; [reflexivity|]. split; [exact Hun|]. split; [|split].
  - destruct (hcid_dbus_exit_unregisters quiet_world (Some ["hci0"])
                (device_path 0) hci0_registered) as [_ Hexit].
    destruct (Hexit eq_refl) as (_ & _ & _ & evs & _ & _ & Hgone & _).
    exact (Hgone Hun).
  - destruct (hcid_dbus_exit_unregisters quiet_world None
                (device_path 0) hci0_registered) as [_ Hexit].
    destruct (Hexit eq_refl) as (_ & _ & _ & evs & _ & _ & _ & Hsame & _).
    exact (Hsame Hkept).
  - destruct (hcid_dbus_exit_unregisters sticky_world (Some ["hci0"])
                (device_path 0) hci0_registered) as [_ Hexit].
    destruct (Hexit eq_refl)
      as (_ & _ & _ & evs & Htrace & _ & _ & _ & Hfreed).
    exists evs. split; [exact Htrace|].
    apply (Hfreed Hin eq_refl). eexists. exact Hbound.
Defined.

Lemma reconnect_resets_default_witness :
  (hcid_dbus_init two_devices_world stale_default_state).1 = true ∧
  default_dev stale_default_state = 7 ∧
  default_dev
    (reconnect_timer_handler two_devices_world stale_default_state).2 = 0.
Proof.
  split; [reflexivity|]. split; [reflexivity|].
  destruct (reconnect_resets_default two_devices_world two_devices
              stale_default_state) as [_ Hjoin].
  apply Hjoin.
  - reflexivity.
  - vm_compute. discriminate.
  - reflexivity.
  - apply (bool_decide_unpack _). vm_compute. exact I.
Defined.

Lemma events_send_one_signal_witness :
  ∃ evs,
    (hcid_dbus_remote_name quiet_world local_address
       (ci_bdaddr incoming_link) "Alice" hci0_registered).2 =
    logged hci0_registered evs ∧
    length (sent_messages evs) = 1%nat ∧
    Forall (device_signal_of 0) (sent_messages evs).
Proof.
  destruct (events_send_one_signal quiet_world local_address
              (remote_name (ci_bdaddr incoming_link) "Alice")
              hci0_registered) as (evs & Hrun & _ & Hsig & Hlen & _).
  exists evs. split; [exact Hrun|]. split; [|exact Hsig].
  rewrite Hlen. apply decide_True. split; [|reflexivity].
  vm_compute. discriminate.
Defined.



Lemma device_list_entries_witness :
  w_HCIGETDEVLIST two_devices_world = Some two_devices ∧
  listed_paths two_devices_world two_devices = [device_path 0] ∧
  ∃ entries,
    handle_mgr_device_list_req two_devices_world list_devices_call
      manager_data hci0_registered =
    (Some (dbus_message_append_args
             (dbus_message_new_method_return list_devices_call)
             [DBUS_TYPE_ARRAY "(sssas)" entries]),
     logged hci0_registered [socket_call; close_call 3]) ∧
    length entries = 1%nat.
Proof.
  split; [reflexivity|]. split; [reflexivity|].
  destruct (device_list_entries two_devices_world list_devices_call
              manager_data two_devices hci0_registered)
    as [(entries & Hrun & Hlen & _) _];
    [vm_compute; discriminate | reflexivity | reflexivity | reflexivity |].
  exists entries. split; [exact Hrun|]. exact Hlen.
Defined.


Lemma unopenable_controller_answers_witness :
  w_hci_open_dev unopenable_world (dev_id (hci0_data 0)) < 0 ∧
  handle_dev_get_name_req unopenable_world get_mode_call (hci0_data 0)
    hci0_registered =
  (Some (failure_msg "No such device" 131091),
   logged hci0_registered [hci_open_dev_call 0]).
Proof.
  assert (w_hci_open_dev unopenable_world (dev_id (hci0_data 0)) < 0)
    as Hopen by (vm_compute; reflexivity).
  split; [exact Hopen|].
  destruct (unopenable_controller_answers unopenable_world get_mode_call
              (hci0_data 0) hci0_registered Hopen) as [Hname _].
  vm_compute in Hname. vm_compute. exact Hname.
Defined.

Lemma unregister_refused_still_announced_witness :
  w_dbus_connection_unregister_object_path sticky_world (device_path 0)
    = false ∧
  is_Some (object_tree hci0_registered !! device_path 0) ∧
  (hcid_dbus_unregister_device sticky_world 0 hci0_registered).1 = false ∧
  trace (hcid_dbus_unregister_device sticky_world 0 hci0_registered).2 =
    trace hci0_registered ++
    [dbus_connection_send_call (manager_signal "DeviceRemoved" 0);
     free_call (device_path 0)] ∧
  is_Some
    (object_tree (hcid_dbus_unregister_device sticky_world 0
                    hci0_registered).2 !! device_path 0).
Proof.
  destruct hci0_registered_data as [Hbound _].
  assert (is_Some (object_tree hci0_registered !! device_path 0)) as Hsome
    by (eexists; exact Hbound).
  split; [reflexivity|]. split; [exact Hsome|].
  destruct (unregister_refused_still_announced sticky_world 0
              hci0_registered eq_refl eq_refl Hsome)
    as (Hret & Htrace & Hstill & _).
  split; [exact Hret|]. split; [exact Htrace|exact Hstill].
Defined.

End concrete_more.
